(** * Food-App-Dashboard: the HTTP client wrapper and the password-reset page

    A shallow embedding of
      - [src/services/api.ts]: [ApiService.makeRequest] and the methods
        that delegate to it;
      - [src/components/ForgotPasswordPage.tsx]: the component state,
        [handleSubmit] and the two views it renders.

    Conventions of the embedding.
      - A JavaScript string is a [string]: one [ascii] per UTF-16 code unit,
        which covers the code units U+0000..U+00FF; [String.length] is the
        [.length] of the source.
      - A JavaScript number is an integer [Z] (identifiers, status codes);
        fractional numbers and NaN are outside the model, and the decimal
        text that [pretty] gives is the text of the number for the safe
        integers, those of magnitude below 2^53 ([safe_integer]); the
        statements that depend on the text of a number assume it.
      - An [async] function is a computation over a [World] (local storage,
        the network, the history of effects) that ends [Resolved] or
        [Rejected]; [await] is sequencing. *)

From Stdlib Require Import Ascii.
From stdpp Require Import gmap strings list fin_maps pretty.

Set Warnings "-register-all".
Open Scope string_scope.
Open Scope Z_scope.

(** ** JavaScript values *)

Module Js.

(** The values that [response.json()] can produce, and [undefined]. An
    object is its list of own properties, first binding of a key wins. *)
Inductive JsValue : Type :=
| JUndefined
| JNull
| JBool (b : bool)
| JNum (n : Z)
| JStr (s : string)
| JArr (elems : list JsValue)
| JObj (props : list (string * JsValue)).

(** ToBoolean. *)
Definition truthy (v : JsValue) : bool :=
  match v with
  | JUndefined | JNull => false
  | JBool b => b
  | JNum n => negb (n =? 0)
  | JStr s => negb (String.eqb s "")
  | JArr _ | JObj _ => true
  end.

(** [a || b]: the left operand when it is truthy, otherwise the right one. *)
Definition or_else (a b : JsValue) : JsValue := if truthy a then a else b.

(** [Number.isSafeInteger(n)]. *)
Definition safe_integer (n : Z) : bool := Z.abs n <? 2 ^ 53.

(** Own-property lookup in a property list. *)
Fixpoint assoc (k : string) (props : list (string * JsValue)) : option JsValue :=
  match props with
  | [] => None
  | (k', v) :: rest => if String.eqb k k' then Some v else assoc k rest
  end.

(** The numbers that take part in the text of a value are safe integers:
    the number itself, or the elements of an array, at any depth. An
    object prints without its contents. *)
Fixpoint numbers_safe (v : JsValue) : bool :=
  match v with
  | JNum n => safe_integer n
  | JArr elems =>
      (fix all (l : list JsValue) : bool :=
         match l with
         | [] => true
         | x :: rest => numbers_safe x && all rest
         end) elems
  | _ => true
  end.

(** [s.includes(sub)]: [sub] occurs somewhere in [s]. *)
Fixpoint includes (s sub : string) : bool :=
  String.prefix sub s ||
  match s with
  | EmptyString => false
  | String _ s' => includes s' sub
  end.

(** *** Thrown values *)

Inductive ErrorClass : Type :=
| Error_
| TypeError_
| SyntaxError_
| DOMException_.

(** What a [throw] or a rejected promise carries: an error object of some
    class with its [message], or any other value. *)
Inductive Thrown : Type :=
| Exn (cls : ErrorClass) (message : string)
| NonError (v : JsValue).

(** The outcome of a promise, and of any evaluation that can throw. *)
Inductive Settled (A : Type) : Type :=
| Resolved (a : A)
| Rejected (e : Thrown).
Arguments Resolved {A} a.
Arguments Rejected {A} e.

(** What ToString throws on an object that cannot be converted (message
    text as V8 words it). *)
Definition conversion_error : Thrown :=
  Exn TypeError_ "Cannot convert object to primitive value".

(** ToString, as [new Error(v)] applies it to a value that came from
    [response.json()]. An array joins the texts of its elements with a
    comma, null and undefined elements printing as nothing. An object
    prints as [object Object] through the inherited [toString]; when it
    has an own property named toString, which is never callable in parsed
    JSON, the conversion finds no usable method and throws a [TypeError].
    The text of a number is its decimal text (see [safe_integer]). *)
Fixpoint toString (v : JsValue) : Settled string :=
  match v with
  | JUndefined => Resolved "undefined"
  | JNull => Resolved "null"
  | JBool true => Resolved "true"
  | JBool false => Resolved "false"
  | JNum n => Resolved (pretty n)
  | JStr s => Resolved s
  | JArr elems =>
      (fix join (l : list JsValue) : Settled string :=
         match l with
         | [] => Resolved ""
         | x :: rest =>
             match (match x with
                    | JUndefined | JNull => Resolved ""
                    | _ => toString x
                    end) with
             | Rejected e => Rejected e
             | Resolved here =>
                 match rest with
                 | [] => Resolved here
                 | _ :: _ =>
                     match join rest with
                     | Resolved tail => Resolved (here ++ "," ++ tail)
                     | Rejected e => Rejected e
                     end
                 end
             end
         end) elems
  | JObj props =>
      match assoc "toString" props with
      | Some _ => Rejected conversion_error
      | None => Resolved "[object Object]"
      end
  end.

(** [new Error(v)] for a [v] that is not [undefined]: the error object,
    unless converting [v] to its message throws. *)
Definition new_Error (v : JsValue) : Settled Thrown :=
  match toString v with
  | Resolved message => Resolved (Exn Error_ message)
  | Rejected e => Rejected e
  end.

(** [e instanceof TypeError]. *)
Definition instanceof_TypeError (e : Thrown) : bool :=
  match e with
  | Exn TypeError_ _ => true
  | _ => false
  end.

(** [e instanceof Error]: every error class above inherits from [Error]. *)
Definition instanceof_Error (e : Thrown) : bool :=
  match e with
  | Exn _ _ => true
  | NonError _ => false
  end.

(** [e.message] of an error object. *)
Definition message_of (e : Thrown) : string :=
  match e with
  | Exn _ m => m
  | NonError _ => ""
  end.

(** [v.k] for the property names the sources read ([errorMessage],
    [message], [success]), none of which a built-in prototype defines:
    the own property of an object, [undefined] on any other value, and a
    [TypeError] on [null] and [undefined] (message text as V8 words it). *)
Definition get (v : JsValue) (k : string) : Settled JsValue :=
  match v with
  | JUndefined =>
      Rejected (Exn TypeError_
        ("Cannot read properties of undefined (reading '" ++ k ++ "')"))
  | JNull =>
      Rejected (Exn TypeError_
        ("Cannot read properties of null (reading '" ++ k ++ "')"))
  | JObj props => Resolved (default JUndefined (assoc k props))
  | _ => Resolved JUndefined
  end.

End Js.
Export Js.

(** ** The browser: local storage, fetch, and asynchronous computations *)

Module Browser.

(** [HeadersInit], the three forms that [RequestInit.headers] admits: a
    plain object from names to values, as [defaultHeaders] is; a [Headers]
    instance, given by its entries; an array of name-value arrays. *)
Inductive HeadersInit : Type :=
| HRecord (record : gmap string string)
| HHeaders (entries : list (string * string))
| HPairs (pairs : list (list string)).

(** [RequestInit], restricted to the members the sources set. A request
    body is the JSON text of a value and is represented by that value. *)
Record RequestInit : Type := mkInit {
  method : option string;
  body : option JsValue;
  headers : option HeadersInit
}.

(** [JSON.stringify(data)], kept as the value it serialises. *)
Definition JSON_stringify (data : JsValue) : JsValue := data.

(** A [Response]: [status], the value of [headers.get('content-type')],
    and what [json()] and [text()] settle to when awaited. *)
Record Response : Type := mkResponse {
  status : Z;
  content_type : option string;
  json : Settled JsValue;
  text : Settled string
}.

(** [response.ok]: the status is in the range 200-299. *)
Definition ok (r : Response) : bool := (200 <=? status r) && (status r <=? 299).

Inductive StorageOp : Type :=
| GetItem (key : string)
| SetItem (key value : string)
| RemoveItem (key : string)
| Clear.

Inductive Event : Type :=
| EvStorage (op : StorageOp)
| EvFetch (url : string) (init : RequestInit).

(** The environment a call runs in. [network] is what [fetch] settles to
    for a given request; [history] records the effects performed, oldest
    first. *)
Record World : Type := mkWorld {
  localStorage : gmap string string;
  network : string → RequestInit → Settled Response;
  history : list Event
}.

Definition record (ev : Event) (w : World) : World :=
  {| localStorage := localStorage w;
     network := network w;
     history := (history w ++ [ev])%list |}.

(** An asynchronous computation over a state [S]: from a state to an
    outcome and the state it leaves. A rejection keeps the effects that
    were performed before it. *)
Definition Async (S A : Type) : Type := S → Settled A * S.

Definition ret {S A} (a : A) : Async S A := λ s, (Resolved a, s).

Definition throw {S A} (e : Thrown) : Async S A := λ s, (Rejected e, s).

Definition bind {S A B} (m : Async S A) (k : A → Async S B) : Async S B :=
  λ s, match m s with
       | (Resolved a, s') => k a s'
       | (Rejected e, s') => (Rejected e, s')
       end.

(** [try { m } catch (error) { handler error }]. *)
Definition try_catch {S A} (m : Async S A) (handler : Thrown → Async S A)
    : Async S A :=
  λ s, match m s with
       | (Resolved a, s') => (Resolved a, s')
       | (Rejected e, s') => handler e s'
       end.

(** [try { m } finally { fin }]: [fin] runs on both outcomes of [m], and
    the outcome of [m] stands unless [fin] itself rejects. *)
Definition try_finally {S A} (m : Async S A) (fin : Async S ()) : Async S A :=
  λ s, match m s with
       | (r, s') => match fin s' with
                    | (Resolved _, s'') => (r, s'')
                    | (Rejected e, s'') => (Rejected e, s'')
                    end
       end.

(** Awaiting a promise that the environment has already determined. *)
Definition await {S A} (p : Settled A) : Async S A := λ s, (p, s).

(** [localStorage.getItem(key)]. *)
Definition localStorage_getItem (key : string) : Async World (option string) :=
  λ w, (Resolved (localStorage w !! key), record (EvStorage (GetItem key)) w).

(** [fetch(url, init)]. *)
Definition fetch (url : string) (init : RequestInit) : Async World Response :=
  λ w, (network w url init, record (EvFetch url init) w).

(** The [fetch] calls recorded in a history. *)
Definition fetches (h : list Event) : list (string * RequestInit) :=
  omap (λ ev, match ev with
              | EvFetch url init => Some (url, init)
              | EvStorage _ => None
              end) h.

(** The storage operations recorded in a history. *)
Definition storage_ops (h : list Event) : list StorageOp :=
  omap (λ ev, match ev with
              | EvStorage op => Some op
              | EvFetch _ _ => None
              end) h.

End Browser.
Export Browser.

Declare Scope async_scope.
Delimit Scope async_scope with async.
Notation "'let!' x ':=' m 'in' k" := (bind m (λ x, k))
  (at level 10, x name, m at level 100, k at level 200) : async_scope.
Notation "m ';;!' k" := (bind m (λ _, k))
  (at level 100, k at level 200, right associativity) : async_scope.
Open Scope async_scope.

(** ** [src/services/api.ts] *)

Module ApiService.

Definition API_BASE_URL : string :=
  "https://groceryapp-production-d3fc.up.railway.app/api".

Definition network_error_message : string :=
  "Network error: Unable to connect to server. Please check your internet connection.".

(** The [defaultHeaders] object once the token has been consulted:
    [if (token)] holds for a stored, non-empty string. *)
Definition defaultHeaders (token : option string) : gmap string string :=
  let base : gmap string string :=
    <["Accept" := "application/json"]>
      (<["Content-Type" := "application/json"]> ∅) in
  match token with
  | Some t => if String.eqb t "" then base
              else <["Authorization" := "Bearer " ++ t]> base
  | None => base
  end.

(** [Array.prototype.join(',')] on an array of strings. *)
Definition join_comma (parts : list string) : string := String.concat "," parts.

(** The properties that [...options.headers] copies, which are the own
    enumerable properties of the value: the entries of a plain object;
    nothing for [undefined], and nothing for a [Headers] instance, whose
    entries are not properties; for an array, one property per index,
    holding the inner array. A copied inner array is written here as
    [fetch] reads it when it takes the object as a record of strings,
    its elements joined by commas. *)
Definition spread_headers (supplied : option HeadersInit) : gmap string string :=
  match supplied with
  | None => ∅
  | Some (HRecord record) => record
  | Some (HHeaders _) => ∅
  | Some (HPairs pairs) =>
      list_to_map (imap (λ i pair, (pretty i, join_comma pair)) pairs)
  end.

(** [{ ...defaultHeaders, ...options.headers }]: the later spread wins on
    a shared key. *)
Definition merge_headers (defaults : gmap string string)
    (supplied : option HeadersInit) : gmap string string :=
  spread_headers supplied ∪ defaults.

(** [{ ...options, headers: ... }]: the merged object is a plain one. *)
Definition with_headers (options : RequestInit) (h : gmap string string)
    : RequestInit :=
  {| method := method options; body := body options;
     headers := Some (HRecord h) |}.

(** [contentType?.includes('application/json')]. *)
Definition is_json (contentType : option string) : bool :=
  match contentType with
  | Some ct => includes ct "application/json"
  | None => false
  end.

(** The [catch] block of [makeRequest]. *)
Definition on_failure {A} (error : Thrown) : Async World A :=
  if instanceof_TypeError error && includes (message_of error) "Failed to fetch"
  then let! failure := await (new_Error (JStr network_error_message)) in
       throw failure
  else throw error.

Definition makeRequest (endpoint : string) (options : RequestInit)
    : Async World JsValue :=
  let url := API_BASE_URL ++ endpoint in
  let! token := localStorage_getItem "auth_token" in
  let defaultHeaders := defaultHeaders token in
  try_catch
    (let! response :=
       fetch url (with_headers options
                    (merge_headers defaultHeaders (headers options))) in
     let contentType := content_type response in
     let! responseData :=
       (if is_json contentType then await (json response)
        else let! text := await (text response) in
             ret (JObj [("message", JStr text)])) in
     if ok response then ret responseData
     else
       let! e1 := await (get responseData "errorMessage") in
       let! errorMessage :=
         (if truthy e1 then ret e1
          else let! e2 := await (get responseData "message") in
               ret (or_else e2 (JStr "Request failed"))) in
       let! failure := await (new_Error errorMessage) in
       throw failure)
    on_failure.

(** *** The methods that delegate to [makeRequest] *)

Definition post (data : JsValue) : RequestInit :=
  {| method := Some "POST"; body := Some (JSON_stringify data); headers := None |}.

Definition get_ : RequestInit :=
  {| method := Some "GET"; body := None; headers := None |}.

Definition login (credentials : JsValue) : Async World JsValue :=
  makeRequest "/auth/login" (post credentials).

Definition signup (data : JsValue) : Async World JsValue :=
  makeRequest "/auth/signup" (post data).

Definition requestOTP (data : JsValue) : Async World JsValue :=
  makeRequest "/auth/request-otp" (post data).

Definition verifyOTP (data : JsValue) : Async World JsValue :=
  makeRequest "/auth/verify-otp" (post data).

Record ForgotPasswordRequest : Type := mkForgot {
  fp_email : string;
  fp_newPassword : string
}.

(** The object literal [{ email, newPassword }] as a value. *)
Definition forgot_data (data : ForgotPasswordRequest) : JsValue :=
  JObj [("email", JStr (fp_email data));
        ("newPassword", JStr (fp_newPassword data))].

Definition forgotPassword (data : ForgotPasswordRequest) : Async World JsValue :=
  makeRequest "/auth/forgot-password" (post (forgot_data data)).

(** [URLSearchParams]: the list of name-value pairs, and its
    [application/x-www-form-urlencoded] serialisation. *)
Definition URLSearchParams : Type := list (string * string).

Definition append (name value : string) (q : URLSearchParams) : URLSearchParams :=
  (q ++ [(name, value)])%list.

(** UTF-8 bytes of one code unit in U+0000..U+00FF. *)
Definition utf8_bytes (c : ascii) : list N :=
  let n := N_of_ascii c in
  if (n <? 128)%N then [n] else [(192 + n / 64)%N; (128 + n mod 64)%N].

(** Bytes the serialiser leaves as they are: ASCII letters and digits,
    and the four characters * - . _ *)
Definition form_safe (b : N) : bool :=
  ((b =? 42) || (b =? 45) || (b =? 46) || (b =? 95) ||
   ((48 <=? b) && (b <=? 57)) || ((65 <=? b) && (b <=? 90)) ||
   ((97 <=? b) && (b <=? 122)))%N.

Definition hex_digit (n : N) : ascii :=
  default "0"%char (String.get (N.to_nat n) "0123456789ABCDEF").

Definition encode_byte (b : N) : string :=
  if (b =? 32)%N then "+"
  else if form_safe b then String (ascii_of_N b) ""
  else String "%"%char
         (String (hex_digit (b / 16)) (String (hex_digit (b mod 16)) "")).

Fixpoint urlencode (s : string) : string :=
  match s with
  | EmptyString => ""
  | String c rest =>
      String.concat "" (encode_byte <$> utf8_bytes c) ++ urlencode rest
  end.

Definition queryString_of (q : URLSearchParams) : string :=
  String.concat "&"
    ((λ nv : string * string, urlencode nv.1 ++ "=" ++ urlencode nv.2) <$> q).

Record GetUsersRequest : Type := mkGetUsers {
  role : option string;
  user_id : option Z
}.

(** [params?.role] as a condition, and its value when the condition holds. *)
Definition truthy_role (params : option GetUsersRequest) : option string :=
  match params with
  | Some p => match role p with
              | Some r => if String.eqb r "" then None else Some r
              | None => None
              end
  | None => None
  end.

(** [params?.user_id] as a condition, and its value when the condition holds. *)
Definition truthy_user_id (params : option GetUsersRequest) : option Z :=
  match params with
  | Some p => match user_id p with
              | Some n => if n =? 0 then None else Some n
              | None => None
              end
  | None => None
  end.

(** The [queryParams] object that [getUsers] builds.
    [params.user_id.toString()] is the decimal text of the identifier,
    for identifiers that are safe integers. *)
Definition getUsers_queryParams (params : option GetUsersRequest)
    : URLSearchParams :=
  let queryParams : URLSearchParams := [] in
  let queryParams :=
    match truthy_role params with
    | Some r => append "role" r queryParams
    | None => queryParams
    end in
  match truthy_user_id params with
  | Some n => append "user_id" (pretty n) queryParams
  | None => queryParams
  end.

Definition getUsers_endpoint (params : option GetUsersRequest) : string :=
  let queryString := queryString_of (getUsers_queryParams params) in
  "/auth/getUsers" ++
    (if String.eqb queryString "" then "" else "?" ++ queryString).

Definition getUsers (params : option GetUsersRequest) : Async World JsValue :=
  makeRequest (getUsers_endpoint params) get_.

Definition createUpdateCategory (data : JsValue) : Async World JsValue :=
  makeRequest "/category/createUpdateCategory" (post data).

Definition deleteCategory (data : JsValue) : Async World JsValue :=
  makeRequest "/category/softDeleteOrDetach"
    {| method := Some "DELETE"; body := Some (JSON_stringify data);
       headers := None |}.

Definition getAllCategories : Async World JsValue :=
  makeRequest "/category/getAll" get_.

Definition getParentCategories : Async World JsValue :=
  makeRequest "/category/getOnlyParentCategories" get_.

(** The template literal prints [parentId] as its decimal text, for
    identifiers that are safe integers. *)
Definition getSubCategories (parentId : Z) : Async World JsValue :=
  makeRequest ("/category/getSubCategories/" ++ pretty parentId) get_.

(** A call of any public method of the service. *)
Inductive ApiCall : Type :=
| Login (credentials : JsValue)
| Signup (data : JsValue)
| RequestOTP (data : JsValue)
| VerifyOTP (data : JsValue)
| ForgotPassword (data : ForgotPasswordRequest)
| GetUsers (params : option GetUsersRequest)
| CreateUpdateCategory (data : JsValue)
| DeleteCategory (data : JsValue)
| GetAllCategories
| GetParentCategories
| GetSubCategories (parentId : Z).

Definition invoke (c : ApiCall) : Async World JsValue :=
  match c with
  | Login d => login d
  | Signup d => signup d
  | RequestOTP d => requestOTP d
  | VerifyOTP d => verifyOTP d
  | ForgotPassword d => forgotPassword d
  | GetUsers p => getUsers p
  | CreateUpdateCategory d => createUpdateCategory d
  | DeleteCategory d => deleteCategory d
  | GetAllCategories => getAllCategories
  | GetParentCategories => getParentCategories
  | GetSubCategories n => getSubCategories n
  end.

(** The endpoint and the options that each method hands to [makeRequest]. *)
Definition endpoint_of (c : ApiCall) : string :=
  match c with
  | Login _ => "/auth/login"
  | Signup _ => "/auth/signup"
  | RequestOTP _ => "/auth/request-otp"
  | VerifyOTP _ => "/auth/verify-otp"
  | ForgotPassword _ => "/auth/forgot-password"
  | GetUsers p => getUsers_endpoint p
  | CreateUpdateCategory _ => "/category/createUpdateCategory"
  | DeleteCategory _ => "/category/softDeleteOrDetach"
  | GetAllCategories => "/category/getAll"
  | GetParentCategories => "/category/getOnlyParentCategories"
  | GetSubCategories n => "/category/getSubCategories/" ++ pretty n
  end.

Definition options_of (c : ApiCall) : RequestInit :=
  match c with
  | Login d | Signup d | RequestOTP d | VerifyOTP d | CreateUpdateCategory d =>
      post d
  | ForgotPassword d => post (forgot_data d)
  | DeleteCategory d =>
      {| method := Some "DELETE"; body := Some (JSON_stringify d);
         headers := None |}
  | GetUsers _ | GetAllCategories | GetParentCategories | GetSubCategories _ =>
      get_
  end.

(** The identifiers that a call prints into its URL are safe integers
    (see [safe_integer]). *)
Definition ids_safe (c : ApiCall) : bool :=
  match c with
  | GetSubCategories parentId => safe_integer parentId
  | GetUsers (Some params) =>
      match user_id params with
      | Some n => safe_integer n
      | None => true
      end
  | _ => true
  end.

(** What [throw new Error(v)] raises: the error object, or what the
    conversion of [v] threw. *)
Definition raised (v : JsValue) : Thrown :=
  match new_Error v with
  | Resolved failure => failure
  | Rejected e => e
  end.

(** The [init] argument that a call with [options] hands to [fetch] when
    the token slot of local storage holds [token]. *)
Definition request_sent (token : option string) (options : RequestInit)
    : RequestInit :=
  with_headers options (merge_headers (defaultHeaders token) (headers options)).

(** What [fetch] settles to for the request of a call made in [w]. *)
Definition fetched (endpoint : string) (options : RequestInit) (w : World)
    : Settled Response :=
  network w (API_BASE_URL ++ endpoint)
    (request_sent (localStorage w !! "auth_token") options).

(** The world a call leaves: the token was read, then the request sent. *)
Definition after_call (endpoint : string) (options : RequestInit) (w : World)
    : World :=
  record (EvFetch (API_BASE_URL ++ endpoint)
            (request_sent (localStorage w !! "auth_token") options))
    (record (EvStorage (GetItem "auth_token")) w).

End ApiService.
Export ApiService.

(** ** [src/components/ForgotPasswordPage.tsx] *)

Module ForgotPasswordPage.

(** The eight [useState] cells of the component. [error] holds whatever
    [setError] was given, which the response decides at run time. *)
Record PageState : Type := mkPage {
  email : string;
  newPassword : string;
  confirmPassword : string;
  showPassword : bool;
  showConfirmPassword : bool;
  isLoading : bool;
  isSuccess : bool;
  error : JsValue
}.

(** The state of a freshly mounted page. *)
Definition initial : PageState :=
  {| email := ""; newPassword := ""; confirmPassword := "";
     showPassword := false; showConfirmPassword := false;
     isLoading := false; isSuccess := false; error := JStr "" |}.

(** A handler runs over the component state and the browser. *)
Definition Handler (A : Type) : Type := Async (PageState * World) A.

(** The values of the render whose closure the handler is. *)
Definition rendered : Handler PageState := λ s, (Resolved s.1, s).

Definition update (f : PageState → PageState) : Handler () :=
  λ s, (Resolved (), (f s.1, s.2)).

Definition setIsLoading (b : bool) : Handler () :=
  update (λ st,
    {| email := email st; newPassword := newPassword st;
       confirmPassword := confirmPassword st; showPassword := showPassword st;
       showConfirmPassword := showConfirmPassword st;
       isLoading := b; isSuccess := isSuccess st; error := error st |}).

Definition setIsSuccess (b : bool) : Handler () :=
  update (λ st,
    {| email := email st; newPassword := newPassword st;
       confirmPassword := confirmPassword st; showPassword := showPassword st;
       showConfirmPassword := showConfirmPassword st;
       isLoading := isLoading st; isSuccess := b; error := error st |}).

Definition setError (v : JsValue) : Handler () :=
  update (λ st,
    {| email := email st; newPassword := newPassword st;
       confirmPassword := confirmPassword st; showPassword := showPassword st;
       showConfirmPassword := showConfirmPassword st;
       isLoading := isLoading st; isSuccess := isSuccess st; error := v |}).

(** A call of the API service from a handler: it acts on the browser and
    leaves the component state alone. *)
Definition apiService {A} (m : Async World A) : Handler A :=
  λ s, match m s.2 with (r, w') => (r, (s.1, w')) end.

(** [handleSubmit]. The handler reads [email], [newPassword] and
    [confirmPassword] from the render it was created in; the call of
    [e.preventDefault()] touches neither the state nor the browser model
    and is left out. *)
Definition handleSubmit : Handler () :=
  let! props := rendered in
  let email := email props in
  let newPassword := newPassword props in
  let confirmPassword := confirmPassword props in
  if negb (String.eqb newPassword confirmPassword) then
    setError (JStr "Passwords do not match")
  else if Z.of_nat (String.length newPassword) <? 8 then
    setError (JStr "Password must be at least 8 characters long")
  else
    setIsLoading true ;;!
    setError (JStr "") ;;!
    try_finally
      (try_catch
         (let! response :=
            apiService (forgotPassword
                          {| fp_email := email; fp_newPassword := newPassword |}) in
          let! success := await (get response "success") in
          if truthy success then setIsSuccess true
          else
            let! message := await (get response "message") in
            setError (or_else message (JStr "Failed to reset password")))
         (λ error,
            setError (if instanceof_Error error then JStr (message_of error)
                      else JStr "An error occurred")))
      (setIsLoading false).

(** What the component renders, reduced to the parts that depend on the
    state: the success screen names the e-mail address; the form shows the
    error banner when [error] is truthy, the three inputs, and the submit
    button, all disabled while loading. The banner is given by the value
    placed in it; how React displays a value that is not a string is not
    part of the view. *)
Inductive View : Type :=
| SuccessView (shown_email : string)
| FormView (banner : option JsValue)
           (email_value newPassword_value confirmPassword_value : string)
           (disabled : bool) (submit_label : string).

Definition render (st : PageState) : View :=
  if isSuccess st then SuccessView (email st)
  else
    FormView (if truthy (error st) then Some (error st) else None)
             (email st) (newPassword st) (confirmPassword st)
             (isLoading st)
             (if isLoading st then "Resetting..." else "Reset Password").

End ForgotPasswordPage.
Export ForgotPasswordPage.

(** ** The form's input and toggle handlers *)

Module FormEvents.

Definition setEmail (v : string) : Handler () :=
  update (λ st,
    {| email := v; newPassword := newPassword st;
       confirmPassword := confirmPassword st; showPassword := showPassword st;
       showConfirmPassword := showConfirmPassword st;
       isLoading := isLoading st; isSuccess := isSuccess st; error := error st |}).

Definition setNewPassword (v : string) : Handler () :=
  update (λ st,
    {| email := email st; newPassword := v;
       confirmPassword := confirmPassword st; showPassword := showPassword st;
       showConfirmPassword := showConfirmPassword st;
       isLoading := isLoading st; isSuccess := isSuccess st; error := error st |}).

Definition setConfirmPassword (v : string) : Handler () :=
  update (λ st,
    {| email := email st; newPassword := newPassword st;
       confirmPassword := v; showPassword := showPassword st;
       showConfirmPassword := showConfirmPassword st;
       isLoading := isLoading st; isSuccess := isSuccess st; error := error st |}).

Definition setShowPassword (b : bool) : Handler () :=
  update (λ st,
    {| email := email st; newPassword := newPassword st;
       confirmPassword := confirmPassword st; showPassword := b;
       showConfirmPassword := showConfirmPassword st;
       isLoading := isLoading st; isSuccess := isSuccess st; error := error st |}).

Definition setShowConfirmPassword (b : bool) : Handler () :=
  update (λ st,
    {| email := email st; newPassword := newPassword st;
       confirmPassword := confirmPassword st; showPassword := showPassword st;
       showConfirmPassword := b;
       isLoading := isLoading st; isSuccess := isSuccess st; error := error st |}).

(** [onChange={(e) => setEmail(e.target.value)}] and its two siblings;
    [value] is [e.target.value]. *)
Definition onChange_email (value : string) : Handler () := setEmail value.

Definition onChange_newPassword (value : string) : Handler () :=
  setNewPassword value.

Definition onChange_confirmPassword (value : string) : Handler () :=
  setConfirmPassword value.

(** [onClick={() => setShowPassword(!showPassword)}] and its sibling. *)
Definition onClick_showPassword : Handler () :=
  let! props := rendered in
  setShowPassword (negb (showPassword props)).

Definition onClick_showConfirmPassword : Handler () :=
  let! props := rendered in
  setShowConfirmPassword (negb (showConfirmPassword props)).

(** The [type] attribute of the two password inputs. *)
Definition newPassword_type (st : PageState) : string :=
  if showPassword st then "text" else "password".

Definition confirmPassword_type (st : PageState) : string :=
  if showConfirmPassword st then "text" else "password".

End FormEvents.
Export FormEvents.

(** ** Characters of a string *)

Module Chars.

Definition chars (s : string) : list ascii := String.list_ascii_of_string s.

(** A character the form serialiser writes as it is. *)
Definition unreserved (c : ascii) : bool := form_safe (N_of_ascii c).

(** A character that can occur in an encoded name or value. *)
Definition encoded_char (c : ascii) : bool :=
  unreserved c || Ascii.eqb c "+" || Ascii.eqb c "%".

(** A character that delimits the parts of a URL or of a query string. *)
Definition delimiter (c : ascii) : bool :=
  existsb (Ascii.eqb c) ["&"; "="; "?"; "#"; "/"; " "]%char.

End Chars.
Export Chars.

(** ** Scenarios used to exercise the definitions *)

Module Scenarios.

(** A world whose server answers every request with [resp]. *)
Definition served (storage : gmap string string) (resp : Response) : World :=
  {| localStorage := storage; network := λ _ _, Resolved resp; history := [] |}.

(** A world in which every [fetch] rejects with [e]. *)
Definition unreachable (storage : gmap string string) (e : Thrown) : World :=
  {| localStorage := storage; network := λ _ _, Rejected e; history := [] |}.

Definition dquote : ascii := ascii_of_nat 34.
Definition backslash : ascii := ascii_of_nat 92.

(** A string between double quotes, with quotes and backslashes escaped
    (the scenarios use no control characters). *)
Fixpoint quoted_tail (s : string) : string :=
  match s with
  | EmptyString => String dquote EmptyString
  | String c rest =>
      if bool_decide (c = dquote) || bool_decide (c = backslash)
      then String backslash (String c (quoted_tail rest))
      else String c (quoted_tail rest)
  end.

Definition quoted (s : string) : string := String dquote (quoted_tail s).

(** The JSON text of a value, as a server would write it. *)
Fixpoint json_text (v : JsValue) : string :=
  match v with
  | JUndefined | JNull => "null"
  | JBool true => "true"
  | JBool false => "false"
  | JNum n => pretty n
  | JStr s => quoted s
  | JArr elems =>
      "[" ++ (fix go (l : list JsValue) : string :=
                match l with
                | [] => EmptyString
                | [x] => json_text x
                | x :: rest => json_text x ++ "," ++ go rest
                end) elems ++ "]"
  | JObj props =>
      "{" ++ (fix go (l : list (string * JsValue)) : string :=
                match l with
                | [] => EmptyString
                | [(k, x)] => quoted k ++ ":" ++ json_text x
                | (k, x) :: rest => quoted k ++ ":" ++ json_text x ++ "," ++ go rest
                end) props ++ "}"
  end.

(** A response carrying the JSON value [data]. *)
Definition json_response (code : Z) (data : JsValue) : Response :=
  {| status := code;
     content_type := Some "application/json; charset=utf-8";
     json := Resolved data;
     text := Resolved (json_text data) |}.

(** A plain-text response; its body is not JSON. *)
Definition text_response (code : Z) (raw : string) : Response :=
  {| status := code;
     content_type := Some "text/html; charset=utf-8";
     json := Rejected (Exn SyntaxError_ "Unexpected token '<'");
     text := Resolved raw |}.

Definition logged_in : gmap string string := {[ "auth_token" := "abc123" ]}.

(** The world [w] with [key] absent from local storage. *)
Definition without_item (key : string) (w : World) : World :=
  {| localStorage := delete key (localStorage w);
     network := network w;
     history := history w |}.

End Scenarios.
Import Scenarios.

(** * Properties *)

Example getUsers_endpoint_sample :
  getUsers_endpoint (Some {| role := Some "shop owner"; user_id := Some 42 |})
  = "/auth/getUsers?role=shop+owner&user_id=42".
Proof. vm_compute. reflexivity. Qed.

Example urlencode_sample : urlencode "a&b=c/d~" = "a%26b%3Dc%2Fd%7E".
Proof. vm_compute. reflexivity. Qed.


(** ** Conversions *)

(** Induction on values that reaches the elements of an array. *)
Lemma JsValue_elements_ind (P : JsValue → Prop) :
  P JUndefined → P JNull → (∀ b, P (JBool b)) → (∀ n, P (JNum n)) →
  (∀ s, P (JStr s)) →
  (∀ elems, Forall P elems → P (JArr elems)) →
  (∀ props, P (JObj props)) →
  ∀ v, P v.
Proof.
  intros Hu Hn Hb Hz Hs Ha Ho.
  exact (fix go (v : JsValue) : P v :=
           match v with
           | JUndefined => Hu
           | JNull => Hn
           | JBool b => Hb b
           | JNum n => Hz n
           | JStr s => Hs s
           | JArr elems =>
               Ha elems
                 ((fix all (l : list JsValue) : Forall P l :=
                     match l with
                     | [] => @Stdlib.Lists.List.Forall_nil _ P
                     | x :: rest =>
                         @Stdlib.Lists.List.Forall_cons _ P x rest (go x) (all rest)
                     end) elems)
           | JObj props => Ho props
           end).
Qed.

(** The text of a non-empty array, element by element. *)
Lemma toString_array_cons (x : JsValue) (rest : list JsValue) :
  toString (JArr (x :: rest)) =
    match (match x with
           | JUndefined | JNull => Resolved ""
           | _ => toString x
           end) with
    | Rejected e => Rejected e
    | Resolved here =>
        match rest with
        | [] => Resolved here
        | _ :: _ =>
            match toString (JArr rest) with
            | Resolved tail => Resolved (here ++ "," ++ tail)
            | Rejected e => Rejected e
            end
        end
    end.
Proof. reflexivity. Qed.

(** The only failure of ToString is the conversion error. *)
Lemma toString_rejected (v : JsValue) (e : Thrown) :
  toString v = Rejected e → e = conversion_error.
Proof.
  revert e. induction v as [| |b|n|s|elems IH|props] using JsValue_elements_ind;
    intros e; try discriminate.
  - by destruct b.
  - revert e. induction IH as [|x rest Hx _ IHrest]; intros e; [discriminate|].
    rewrite toString_array_cons.
    destruct (match x with
              | JUndefined | JNull => Resolved ""
              | _ => toString x
              end) as [here|e'] eqn:Hhere.
    + destruct rest as [|y rest']; [discriminate|].
      destruct (toString (JArr (y :: rest'))) as [tail|e''] eqn:Hrest;
        [discriminate|].
      intros [= <-]. by apply IHrest.
    + intros [= <-]. destruct x; try discriminate; by apply Hx.
  - simpl. destruct (assoc "toString" props); [|discriminate]. by intros [= <-].
Qed.

(** What [throw new Error(v)] raises is never taken for a network
    failure. *)
Lemma raised_not_network (v : JsValue) :
  instanceof_TypeError (raised v)
  && includes (message_of (raised v)) "Failed to fetch" = false.
Proof.
  unfold raised, new_Error. destruct (toString v) as [m|e] eqn:Hv; [done|].
  by rewrite (toString_rejected v e Hv).
Qed.

(** The text of a string is the string. *)
Lemma raised_string (s : string) : raised (JStr s) = Exn Error_ s.
Proof. reflexivity. Qed.

(** ** Running [makeRequest] *)

(** Expose the state passing of a call of [makeRequest]. *)
Ltac run_makeRequest :=
  unfold makeRequest, bind, try_catch, localStorage_getItem, fetch, await, ret,
    throw; simpl.

Section MakeRequest.

Variables (endpoint : string) (options : RequestInit) (w : World).


(** Whatever the server does, the call reads the token once, sends one
    request, and does nothing else to the world. *)
Lemma makeRequest_world :
  (makeRequest endpoint options w).2 = after_call endpoint options w.
Proof.
  run_makeRequest. unfold after_call, request_sent, on_failure, throw; simpl.
  repeat (case_match; simplify_eq/=; try reflexivity).
Qed.

(** The outcome when [fetch] rejects: the [catch] block decides. *)
Lemma makeRequest_fetch_rejected (e : Thrown) :
  fetched endpoint options w = Rejected e →
  (makeRequest endpoint options w).1 = (on_failure (A:=JsValue) e w).1.
Proof.
  intros Hnet. unfold fetched, request_sent in Hnet.
  run_makeRequest. rewrite Hnet. unfold on_failure, throw. by case_match.
Qed.

(** The outcome when [fetch] resolves with a successful response and the
    body could be read. *)
Lemma makeRequest_ok (resp : Response) (data : JsValue) :
  fetched endpoint options w = Resolved resp →
  ok resp = true →
  (if is_json (content_type resp) then json resp = Resolved data
   else ∃ t, text resp = Resolved t ∧ data = JObj [("message", JStr t)]) →
  (makeRequest endpoint options w).1 = Resolved data.
Proof.
  intros Hnet Hok Hbody. unfold fetched, request_sent in Hnet.
  run_makeRequest. rewrite Hnet. simpl. destruct (is_json (content_type resp)).
  - rewrite Hbody. simpl. by rewrite Hok.
  - destruct Hbody as (t & -> & ->). simpl. by rewrite Hok.
Qed.

(** The outcome when [fetch] resolves with a failure status and the body
    could be read as a value other than [null]. *)
Lemma makeRequest_not_ok (resp : Response) (data e1 e2 : JsValue) :
  fetched endpoint options w = Resolved resp →
  ok resp = false →
  (if is_json (content_type resp) then json resp = Resolved data
   else ∃ t, text resp = Resolved t ∧ data = JObj [("message", JStr t)]) →
  get data "errorMessage" = Resolved e1 →
  get data "message" = Resolved e2 →
  (makeRequest endpoint options w).1 =
    Rejected (raised (or_else e1 (or_else e2 (JStr "Request failed")))).
Proof.
  intros Hnet Hok Hbody H1 H2. unfold fetched, request_sent in Hnet.
  assert (Hthrow : ∀ (v : JsValue) (w0 : World),
    (match new_Error v with
     | Resolved failure => on_failure (A:=JsValue) failure w0
     | Rejected e => on_failure (A:=JsValue) e w0
     end).1 = Rejected (raised v)).
  { intros v w0. pose proof (raised_not_network v) as Hv. unfold raised in *.
    destruct (new_Error v); unfold on_failure; rewrite Hv; done. }
  run_makeRequest. rewrite Hnet. simpl.
  destruct (is_json (content_type resp)).
  - rewrite Hbody. simpl. rewrite Hok, H1. unfold or_else.
    destruct (truthy e1); simpl.
    + rewrite <-Hthrow with (w0 := after_call endpoint options w).
      unfold after_call, request_sent. by destruct (new_Error e1).
    + rewrite H2. simpl.
      rewrite <-Hthrow with (w0 := after_call endpoint options w).
      unfold after_call, request_sent.
      by destruct (new_Error (if truthy e2 then e2 else JStr "Request failed")).
  - destruct Hbody as (t & -> & ->). simpl in *. simplify_eq. rewrite Hok.
    unfold or_else; simpl. by destruct (String.eqb t "").
Qed.

(** [response.ok] in terms of the status code. *)
Lemma ok_true (resp : Response) : ok resp = true ↔ 200 ≤ status resp ≤ 299.
Proof. unfold ok. rewrite andb_true_iff, !Z.leb_le. done. Qed.

Lemma ok_false (resp : Response) :
  ok resp = false ↔ status resp < 200 ∨ 299 < status resp.
Proof. unfold ok. rewrite andb_false_iff, !Z.leb_gt. done. Qed.

End MakeRequest.

(** Every public method is one call of [makeRequest]. *)
Lemma invoke_delegates (c : ApiCall) :
  invoke c = makeRequest (endpoint_of c) (options_of c).
Proof. by destruct c. Qed.

(** ** Error messages of failed requests *)

(** A failure response whose [errorMessage] is the empty string. *)
Example empty_errorMessage_falls_back :
  (login (JObj [])
     (served ∅ (json_response 400
        (JObj [("errorCode", JNum 1); ("errorMessage", JStr "")])))).1
  = Rejected (Exn Error_ "Request failed").
Proof. reflexivity. Qed.

(** C1, as stated, fails: it is not the case that every failure response
    whose JSON body has a string [errorMessage] of value [X] makes
    [makeRequest] reject with message [X]. For [X] the empty string the
    [||] chain moves on to [message] and then to the default. *)
Lemma errorMessage_not_always_the_message :
  ¬ (∀ (endpoint : string) (options : RequestInit) (w : World)
       (resp : Response) (props : list (string * JsValue)) (X : string),
       fetched endpoint options w = Resolved resp →
       status resp < 200 ∨ 299 < status resp →
       is_json (content_type resp) = true →
       json resp = Resolved (JObj props) →
       assoc "errorMessage" props = Some (JStr X) →
       (makeRequest endpoint options w).1 = Rejected (Exn Error_ X)).
Proof.
  intros claim.
  specialize (claim "/auth/login" (post (JObj []))
    (served ∅ (json_response 400
       (JObj [("errorCode", JNum 1); ("errorMessage", JStr "")])))
    (json_response 400
       (JObj [("errorCode", JNum 1); ("errorMessage", JStr "")]))
    [("errorCode", JNum 1); ("errorMessage", JStr "")] "").
  vm_compute in claim.
  specialize (claim eq_refl (or_intror eq_refl) eq_refl eq_refl eq_refl).
  discriminate claim.
Qed.

(** C1, amended: for a failure response whose JSON body has an
    [errorMessage] that is a non-empty string [X], [makeRequest] rejects
    with an [Error] whose message is exactly [X], and so does every method
    of the service that makes this request. *)
Theorem errorMessage_is_the_message
    (endpoint : string) (options : RequestInit) (w : World)
    (resp : Response) (props : list (string * JsValue)) (X : string) :
  fetched endpoint options w = Resolved resp →
  status resp < 200 ∨ 299 < status resp →
  is_json (content_type resp) = true →
  json resp = Resolved (JObj props) →
  assoc "errorMessage" props = Some (JStr X) →
  X ≠ "" →
  (makeRequest endpoint options w).1 = Rejected (Exn Error_ X) ∧
  ∀ c : ApiCall, endpoint_of c = endpoint → options_of c = options →
    (invoke c w).1 = Rejected (Exn Error_ X).
Proof.
  intros Hnet Hstatus Hjson Hbody HX Hne.
  assert (Hrun : (makeRequest endpoint options w).1 = Rejected (Exn Error_ X)).
  { rewrite (makeRequest_not_ok endpoint options w resp (JObj props) (JStr X)
               (default JUndefined (assoc "message" props))); try done.
    - unfold or_else at 1. simpl. destruct (String.eqb_spec X ""); done.
    - by apply ok_false.
    - by rewrite Hjson.
    - simpl. by rewrite HX. }
  split; [done|]. intros c <- <-. by rewrite invoke_delegates.
Qed.

Lemma errorMessage_is_the_message_witness :
  (forgotPassword {| fp_email := "a@b.c"; fp_newPassword := "12345678" |}
     (served logged_in (json_response 404
        (JObj [("errorCode", JNum 1); ("errorMessage", JStr "User not found");
               ("data", JNull)])))).1
  = Rejected (Exn Error_ "User not found").
Proof.
  pose (d := {| fp_email := "a@b.c"; fp_newPassword := "12345678" |}).
  pose (body := [("errorCode", JNum 1); ("errorMessage", JStr "User not found");
                 ("data", JNull)]).
  refine (proj2 (errorMessage_is_the_message
           "/auth/forgot-password" (post (forgot_data d))
           (served logged_in (json_response 404 (JObj body)))
           (json_response 404 (JObj body)) body "User not found"
           _ _ _ _ _ _) (ForgotPassword d) _ _).
  - reflexivity.
  - right. reflexivity.
  - reflexivity.
  - reflexivity.
  - reflexivity.
  - discriminate.
  - reflexivity.
  - reflexivity.
Defined.

(** The default message: a failure response whose body is not [null] and
    offers neither a truthy [errorMessage] nor a truthy [message] is
    rejected with "Request failed". *)
Lemma default_message_for_readable_body
    (endpoint : string) (options : RequestInit) (w : World)
    (resp : Response) (data e1 e2 : JsValue) :
  fetched endpoint options w = Resolved resp →
  status resp < 200 ∨ 299 < status resp →
  (if is_json (content_type resp) then json resp = Resolved data
   else ∃ t, text resp = Resolved t ∧ data = JObj [("message", JStr t)]) →
  get data "errorMessage" = Resolved e1 → truthy e1 = false →
  get data "message" = Resolved e2 → truthy e2 = false →
  (makeRequest endpoint options w).1 = Rejected (Exn Error_ "Request failed").
Proof.
  intros Hnet Hstatus Hbody H1 Hf1 H2 Hf2.
  rewrite (makeRequest_not_ok endpoint options w resp data e1 e2);
    [|done|by apply ok_false|done..].
  unfold or_else. by rewrite Hf1, Hf2.
Qed.

(** Property reads succeed on every value except [null] and [undefined]. *)
Lemma get_readable (data : JsValue) (k : string) :
  data ≠ JNull → data ≠ JUndefined → ∃ v, get data k = Resolved v.
Proof. destruct data; simpl; intros; try done; eauto. Qed.

(** C2: a failure response whose JSON body is [null] has no message field
    of any kind, yet the call is not rejected with "Request failed": the
    read of [errorMessage] raises a [TypeError], which the [catch] block
    re-throws as it is. *)
Theorem null_body_escapes_the_default :
  (makeRequest "/auth/login" (post (JObj []))
     (served ∅ (json_response 500 JNull))).1
  = Rejected (Exn TypeError_
      "Cannot read properties of null (reading 'errorMessage')").
Proof. reflexivity. Qed.

(** ** Transport failures *)

(** A rejected [fetch] does not always surface as the fixed connectivity
    message: a [TypeError] worded the way Firefox words a network failure
    is re-thrown as it is. *)
Lemma transport_failure_not_always_translated :
  ¬ (∀ (endpoint : string) (options : RequestInit) (w : World) (e : Thrown),
       fetched endpoint options w = Rejected e →
       (makeRequest endpoint options w).1
       = Rejected (Exn Error_ network_error_message)).
Proof.
  intros claim.
  specialize (claim "/auth/login" (post (JObj []))
    (unreachable ∅
       (Exn TypeError_ "NetworkError when attempting to fetch resource."))
    (Exn TypeError_ "NetworkError when attempting to fetch resource.")
    eq_refl).
  vm_compute in claim. discriminate claim.
Qed.

(** C3: the network failure of a browser that does not word it "Failed
    to fetch". Firefox rejects [fetch] with a [TypeError] of message
    "NetworkError when attempting to fetch resource."; the call then
    rejects with that raw transport error and not with the fixed
    connectivity message. *)
Theorem firefox_network_failure_is_rethrown_raw :
  (login (JObj [("identifier", JStr "a@b.c"); ("password", JStr "secret12")])
     (unreachable ∅
        (Exn TypeError_ "NetworkError when attempting to fetch resource."))).1
  = Rejected (Exn TypeError_ "NetworkError when attempting to fetch resource.").
Proof. reflexivity. Qed.

(** What the guard of the [catch] block does with a rejected [fetch]: a
    [TypeError] whose message contains "Failed to fetch" becomes the fixed
    connectivity message, whatever else the message says; any other
    rejection is re-thrown as it is. *)
Lemma transport_failure_translation
    (endpoint : string) (options : RequestInit) (w : World) (e : Thrown) :
  fetched endpoint options w = Rejected e →
  (instanceof_TypeError e && includes (message_of e) "Failed to fetch" = true →
   (makeRequest endpoint options w).1
   = Rejected (Exn Error_ network_error_message) ∧
   Exn Error_ network_error_message ≠ e) ∧
  (instanceof_TypeError e && includes (message_of e) "Failed to fetch" = false →
   (makeRequest endpoint options w).1 = Rejected e).
Proof.
  intros Hnet. rewrite (makeRequest_fetch_rejected _ _ _ e Hnet).
  unfold on_failure, throw. split; intros Hguard; rewrite Hguard; simpl.
  - split; [done|]. intros <-. discriminate Hguard.
  - done.
Qed.

Lemma transport_failure_translation_witness :
  (getAllCategories
     (unreachable logged_in
        (Exn TypeError_ "TypeError: Failed to fetch (api.example.test)"))).1
  = Rejected (Exn Error_ network_error_message).
Proof.
  refine (proj1 (proj1 (transport_failure_translation
            "/category/getAll" get_
            (unreachable logged_in
               (Exn TypeError_ "TypeError: Failed to fetch (api.example.test)"))
            (Exn TypeError_ "TypeError: Failed to fetch (api.example.test)")
            _) _)).
  - reflexivity.
  - reflexivity.
Defined.

(** ** Successful responses *)

(** A 2xx response that announces JSON and has an empty body: [json()]
    rejects, and so does the call. *)
Example empty_json_body_rejects :
  (getAllCategories
     (served ∅ {| status := 200;
                  content_type := Some "application/json";
                  json := Rejected (Exn SyntaxError_ "Unexpected end of JSON input");
                  text := Resolved "" |})).1
  = Rejected (Exn SyntaxError_ "Unexpected end of JSON input").
Proof. reflexivity. Qed.

(** C4, as stated, fails: a response with a 2xx status does not always
    resolve the call. When the body cannot be read, as for a 200 that
    announces JSON and carries an empty body, the call rejects. *)
Lemma success_status_not_always_resolved :
  ¬ (∀ (endpoint : string) (options : RequestInit) (w : World)
       (resp : Response),
       fetched endpoint options w = Resolved resp →
       200 ≤ status resp ≤ 299 →
       ∃ data : JsValue, (makeRequest endpoint options w).1 = Resolved data).
Proof.
  intros claim.
  destruct (claim "/category/getAll" get_
    (served ∅ {| status := 200;
                 content_type := Some "application/json";
                 json := Rejected (Exn SyntaxError_ "Unexpected end of JSON input");
                 text := Resolved "" |})
    {| status := 200;
       content_type := Some "application/json";
       json := Rejected (Exn SyntaxError_ "Unexpected end of JSON input");
       text := Resolved "" |}
    eq_refl ltac:(simpl; lia)) as [data Hdata].
  vm_compute in Hdata. discriminate Hdata.
Qed.

(** C4, amended: a response with a 2xx status whose body can be read
    resolves the call with the body as it was read, whatever its shape:
    the value of [json()] when the content type includes application/json,
    otherwise the text wrapped as [{ message: text }]. *)
Theorem success_returns_body_as_is
    (endpoint : string) (options : RequestInit) (w : World) (resp : Response) :
  fetched endpoint options w = Resolved resp →
  200 ≤ status resp ≤ 299 →
  (is_json (content_type resp) = true →
   ∀ data : JsValue, json resp = Resolved data →
     (makeRequest endpoint options w).1 = Resolved data) ∧
  (is_json (content_type resp) = false →
   ∀ t : string, text resp = Resolved t →
     (makeRequest endpoint options w).1 = Resolved (JObj [("message", JStr t)])).
Proof.
  intros Hnet Hstatus. apply ok_true in Hstatus.
  split; intros Hct body Hbody;
    apply (makeRequest_ok endpoint options w resp); try done;
    rewrite Hct; eauto.
Qed.

Lemma success_returns_body_as_is_witness :
  (makeRequest "/category/getAll" get_
     (served logged_in (json_response 200 (JArr [JNum 7; JStr "x"])))).1
  = Resolved (JArr [JNum 7; JStr "x"]) ∧
  (makeRequest "/category/getAll" get_
     (served logged_in (text_response 204 "done"))).1
  = Resolved (JObj [("message", JStr "done")]).
Proof.
  split.
  - refine (proj1 (success_returns_body_as_is "/category/getAll" get_
             (served logged_in (json_response 200 (JArr [JNum 7; JStr "x"])))
             (json_response 200 (JArr [JNum 7; JStr "x"])) _ _) _ _ _).
    + reflexivity.
    + simpl. lia.
    + reflexivity.
    + reflexivity.
  - refine (proj2 (success_returns_body_as_is "/category/getAll" get_
             (served logged_in (text_response 204 "done"))
             (text_response 204 "done") _ _) _ _ _).
    + reflexivity.
    + simpl. lia.
    + reflexivity.
    + reflexivity.
Defined.

(** ** Headers and local storage *)

(** The entries of [defaultHeaders], name by name. *)
Lemma defaultHeaders_lookup (token : option string) (name : string) :
  defaultHeaders token !! name =
    if String.eqb name "Content-Type" then Some "application/json"
    else if String.eqb name "Accept" then Some "application/json"
    else if String.eqb name "Authorization" then
      match token with
      | Some t => if String.eqb t "" then None else Some ("Bearer " ++ t)
      | None => None
      end
    else None.
Proof.
  unfold defaultHeaders.
  destruct (String.eqb_spec name "Content-Type") as [->|H1];
    [by repeat case_match|].
  destruct (String.eqb_spec name "Accept") as [->|H2];
    [by repeat case_match|].
  destruct (String.eqb_spec name "Authorization") as [->|H3].
  - destruct token as [t|]; [|done]. destruct (String.eqb t ""); [done|].
    by rewrite lookup_insert_eq.
  - destruct token as [t|]; [destruct (String.eqb t "")|];
      by rewrite !lookup_insert_ne.
Qed.

(** The merge looks a name up among the copied properties first. *)
Lemma merge_headers_lookup (defaults : gmap string string)
    (supplied : option HeadersInit) (name : string) :
  merge_headers defaults supplied !! name =
    match spread_headers supplied !! name with
    | Some v => Some v
    | None => defaults !! name
    end.
Proof.
  unfold merge_headers.
  destruct (spread_headers supplied !! name) as [v|] eqn:Hh.
  - by apply lookup_union_Some_l.
  - by apply lookup_union_r.
Qed.

(** A call without headers of its own sends exactly the defaults. *)
Lemma request_sent_defaults (token : option string) (options : RequestInit) :
  headers options = None →
  request_sent token options =
    {| method := method options; body := body options;
       headers := Some (HRecord (defaultHeaders token)) |}.
Proof.
  intros Hh. unfold request_sent, with_headers, merge_headers.
  rewrite Hh. simpl. by rewrite (left_id_L ∅ (∪)).
Qed.

(** The requests a call adds to the history: exactly one. *)
Lemma makeRequest_fetches (endpoint : string) (options : RequestInit) (w : World) :
  fetches (history (makeRequest endpoint options w).2) =
    (fetches (history w) ++
       [((API_BASE_URL ++ endpoint)%string,
         request_sent (localStorage w !! "auth_token") options)])%list.
Proof.
  rewrite makeRequest_world. unfold after_call, record, fetches; simpl.
  rewrite !omap_app. simpl. by rewrite app_nil_r.
Qed.

(** The request handed to [fetch] keeps the caller's method and body,
    and its headers are the defaults (JSON content type and accept, and
    the bearer token when local storage holds one) overlaid with the
    properties that the spread copies from the caller's headers. *)
Lemma sent_headers_lookup
    (endpoint : string) (options : RequestInit) (w : World) :
  ∃ (sent : RequestInit) (sent_headers : gmap string string),
    fetches (history (makeRequest endpoint options w).2) =
      (fetches (history w) ++ [((API_BASE_URL ++ endpoint)%string, sent)])%list ∧
    method sent = method options ∧
    body sent = body options ∧
    headers sent = Some (HRecord sent_headers) ∧
    ∀ name : string,
      sent_headers !! name =
        match spread_headers (headers options) !! name with
        | Some v => Some v
        | None =>
            if String.eqb name "Content-Type" then Some "application/json"
            else if String.eqb name "Accept" then Some "application/json"
            else if String.eqb name "Authorization" then
              match localStorage w !! "auth_token" with
              | Some t => if String.eqb t "" then None else Some ("Bearer " ++ t)
              | None => None
              end
            else None
        end.
Proof.
  eexists _, _. split; [apply makeRequest_fetches|].
  repeat split. intros name.
  by rewrite merge_headers_lookup, defaultHeaders_lookup.
Qed.

(** For caller headers given as a plain object, a name the caller
    defines carries the caller's value, whatever the defaults hold. *)
Lemma plain_caller_headers_win
    (options : RequestInit) (token : option string)
    (record : gmap string string) (name value : string) :
  headers options = Some (HRecord record) →
  record !! name = Some value →
  ∃ sent_headers : gmap string string,
    headers (request_sent token options) = Some (HRecord sent_headers) ∧
    sent_headers !! name = Some value.
Proof.
  intros Hh Hname. eexists. split; [reflexivity|].
  rewrite merge_headers_lookup, Hh. simpl. by rewrite Hname.
Qed.

(** For caller headers given as a [Headers] instance, the request carries
    the defaults and nothing else. *)
Lemma headers_instance_is_dropped
    (options : RequestInit) (token : option string)
    (entries : list (string * string)) :
  headers options = Some (HHeaders entries) →
  headers (request_sent token options)
  = Some (HRecord (defaultHeaders token)).
Proof.
  intros Hh. unfold request_sent, with_headers, merge_headers; simpl.
  rewrite Hh. simpl. by rewrite (left_id_L ∅ (∪)).
Qed.

(** A caller that overrides the content type and adds a header, with a
    plain object. *)
Example caller_headers_win :
  fetches (history
    (makeRequest "/upload"
       {| method := Some "POST"; body := None;
          headers := Some (HRecord {[ "Content-Type" := "text/csv";
                                      "X-Trace" := "1" ]}) |}
       (served logged_in (json_response 200 JNull))).2)
  = [("https://groceryapp-production-d3fc.up.railway.app/api/upload",
      {| method := Some "POST"; body := None;
         headers := Some (HRecord {[ "Content-Type" := "text/csv";
                                     "X-Trace" := "1";
                                     "Accept" := "application/json";
                                     "Authorization" := "Bearer abc123" ]}) |})].
Proof. vm_compute. reflexivity. Qed.

(** The same headers given as an array of pairs: each pair lands under
    its index, and the default content type stays. *)
Example pair_array_lands_under_indices :
  fetches (history
    (makeRequest "/upload"
       {| method := Some "POST"; body := None;
          headers := Some (HPairs [["Content-Type"; "text/csv"];
                                   ["X-Trace"; "1"]]) |}
       (served logged_in (json_response 200 JNull))).2)
  = [("https://groceryapp-production-d3fc.up.railway.app/api/upload",
      {| method := Some "POST"; body := None;
         headers := Some (HRecord {[ "0" := "Content-Type,text/csv";
                                     "1" := "X-Trace,1";
                                     "Content-Type" := "application/json";
                                     "Accept" := "application/json";
                                     "Authorization" := "Bearer abc123" ]}) |})].
Proof. vm_compute. reflexivity. Qed.


(** C8: a call leaves local storage as it found it, whether it resolves
    or rejects, and the one storage operation it performs is the read of
    the key auth_token. *)
Theorem makeRequest_only_reads_the_token
    (endpoint : string) (options : RequestInit) (w : World) :
  localStorage (makeRequest endpoint options w).2 = localStorage w ∧
  storage_ops (history (makeRequest endpoint options w).2) =
    (storage_ops (history w) ++ [GetItem "auth_token"])%list.
Proof.
  rewrite makeRequest_world. unfold after_call, record, storage_ops; simpl.
  split; [done|]. rewrite !omap_app. simpl. by rewrite app_nil_r.
Qed.

(** The outcome of a call depends on the world only through what [fetch]
    settles to. *)
Lemma makeRequest_outcome_determined
    (endpoint : string) (options : RequestInit) (w1 w2 : World) :
  fetched endpoint options w1 = fetched endpoint options w2 →
  (makeRequest endpoint options w1).1 = (makeRequest endpoint options w2).1.
Proof.
  unfold fetched, request_sent. intros Hnet.
  run_makeRequest. rewrite Hnet. unfold on_failure, bind, await, throw; simpl.
  repeat (case_match; simplify_eq/=; try congruence).
Qed.

(** The default [Authorization] header exists exactly for a stored,
    non-empty token, and then carries it as a bearer token. *)
Lemma default_authorization (token : option string) (v : string) :
  defaultHeaders token !! "Authorization" = Some v ↔
  ∃ t, token = Some t ∧ t ≠ "" ∧ v = "Bearer " ++ t.
Proof.
  rewrite defaultHeaders_lookup. simpl. split.
  - destruct token as [t|]; [|done].
    destruct (String.eqb_spec t ""); [done|]. intros [= <-]. eauto.
  - intros (t & -> & Hne & ->). by destruct (String.eqb_spec t "").
Qed.

(** C10: with the empty string stored under auth_token, the defaults hold
    no [Authorization] header, the request carries one only if the caller
    supplied it, and request and outcome are those of a call made with
    the key absent; a default [Authorization] header is attached only for
    a non-empty stored token. *)
Theorem empty_token_attaches_no_authorization
    (endpoint : string) (options : RequestInit) (w : World) :
  localStorage w !! "auth_token" = Some "" →
  defaultHeaders (localStorage w !! "auth_token") !! "Authorization" = None ∧
  merge_headers (defaultHeaders (localStorage w !! "auth_token"))
    (headers options) !! "Authorization"
  = spread_headers (headers options) !! "Authorization" ∧
  fetches (history (makeRequest endpoint options w).2) =
    fetches (history
      (makeRequest endpoint options (without_item "auth_token" w)).2) ∧
  (makeRequest endpoint options w).1 =
    (makeRequest endpoint options (without_item "auth_token" w)).1 ∧
  ∀ (token : option string) (v : string),
    defaultHeaders token !! "Authorization" = Some v →
    ∃ t, token = Some t ∧ t ≠ "" ∧ v = "Bearer " ++ t.
Proof.
  intros Htoken.
  assert (Hsent : request_sent (localStorage w !! "auth_token") options =
                  request_sent (delete "auth_token" (localStorage w)
                                  !! "auth_token") options).
  { by rewrite Htoken, lookup_delete_eq. }
  split; [by rewrite Htoken|].
  split.
  { rewrite merge_headers_lookup, defaultHeaders_lookup, Htoken. simpl.
    by case_match. }
  split.
  { rewrite !makeRequest_fetches. simpl. by rewrite Hsent. }
  split.
  { apply makeRequest_outcome_determined. unfold fetched. simpl.
    by rewrite Hsent. }
  intros token v. apply default_authorization.
Qed.

Lemma empty_token_attaches_no_authorization_witness :
  fetches (history
    (getAllCategories (served {[ "auth_token" := "" ]}
                         (json_response 200 (JArr [])))).2)
  = [("https://groceryapp-production-d3fc.up.railway.app/api/category/getAll",
      {| method := Some "GET"; body := None;
         headers := Some (HRecord {[ "Content-Type" := "application/json";
                                     "Accept" := "application/json" ]}) |})].
Proof.
  etrans.
  - refine (proj1 (proj2 (proj2 (empty_token_attaches_no_authorization
              "/category/getAll" get_
              (served {[ "auth_token" := "" ]} (json_response 200 (JArr [])))
              _)))).
    reflexivity.
  - vm_compute. reflexivity.
Defined.

(** ** Query parameters of [getUsers] *)

(** C9: [getUsers] appends a query parameter only for a truthy value. A
    [user_id] of 0 and a [role] that is the empty string leave the
    endpoint as it is without them, and [getUsers({user_id: 0})] requests
    plain /auth/getUsers. *)
Theorem getUsers_omits_falsy_parameters :
  (∀ r : option string,
     getUsers_endpoint (Some {| role := r; user_id := Some 0 |}) =
     getUsers_endpoint (Some {| role := r; user_id := None |})) ∧
  (∀ u : option Z,
     getUsers_endpoint (Some {| role := Some ""; user_id := u |}) =
     getUsers_endpoint (Some {| role := None; user_id := u |})) ∧
  getUsers_endpoint (Some {| role := None; user_id := Some 0 |})
  = "/auth/getUsers" ∧
  (∀ w : World,
     fetches (history
       (getUsers (Some {| role := None; user_id := Some 0 |}) w).2) =
     (fetches (history w) ++
        [("https://groceryapp-production-d3fc.up.railway.app/api/auth/getUsers",
          request_sent (localStorage w !! "auth_token") get_)])%list) ∧
  ∀ params : option GetUsersRequest,
    getUsers_queryParams params =
      match params with
      | None => []
      | Some p =>
          (match role p with
           | Some r => if String.eqb r "" then [] else [("role", r)]
           | None => []
           end ++
           match user_id p with
           | Some n => if n =? 0 then [] else [("user_id", pretty n)]
           | None => []
           end)%list
      end.
Proof.
  split; [done|]. split; [done|]. split; [done|]. split.
  - intros w. unfold getUsers. by rewrite makeRequest_fetches.
  - intros [[[r|] [n|]]|]; unfold getUsers_queryParams; simpl;
      repeat case_match; by simplify_eq.
Qed.

(** ** The password-reset form *)

(** A mismatched password that is also too short. *)
Example short_and_mismatched_shows_mismatch :
  error (handleSubmit
           ({| email := "a@b.c"; newPassword := "short";
               confirmPassword := "other"; showPassword := false;
               showConfirmPassword := false; isLoading := false;
               isSuccess := false; error := JStr "" |},
            served ∅ (json_response 200 JNull))).2.1
  = JStr "Passwords do not match".
Proof. reflexivity. Qed.

(** C6, as stated, fails: a too-short password does not always bring up
    the minimum-length message. When the confirmation differs as well,
    the mismatch is checked first and its message is the one shown. *)
Lemma short_password_message_not_always_shown :
  ¬ (∀ (st : PageState) (w : World),
       newPassword st ≠ confirmPassword st ∨
       (String.length (newPassword st) < 8)%nat →
       fetches (history (handleSubmit (st, w)).2.2) = fetches (history w) ∧
       (newPassword st ≠ confirmPassword st →
        error (handleSubmit (st, w)).2.1 = JStr "Passwords do not match") ∧
       ((String.length (newPassword st) < 8)%nat →
        error (handleSubmit (st, w)).2.1
        = JStr "Password must be at least 8 characters long")).
Proof.
  intros claim.
  destruct (claim
    {| email := "a@b.c"; newPassword := "short"; confirmPassword := "other";
       showPassword := false; showConfirmPassword := false;
       isLoading := false; isSuccess := false; error := JStr "" |}
    (served ∅ (json_response 200 JNull))) as (_ & _ & Hshort).
  - right. simpl. lia.
  - simpl in Hshort. specialize (Hshort ltac:(lia)). discriminate Hshort.
Qed.

(** C6, amended: a submission whose passwords differ, or whose new
    password has fewer than 8 characters, makes no network call and
    leaves the browser untouched; the message set, and shown in the form's
    banner, is "Passwords do not match" when the passwords differ and the
    minimum-length message when they agree and are too short. *)
Theorem invalid_submission_makes_no_call (st : PageState) (w : World) :
  newPassword st ≠ confirmPassword st ∨
  (String.length (newPassword st) < 8)%nat →
  (handleSubmit (st, w)).1 = Resolved () ∧
  (handleSubmit (st, w)).2.2 = w ∧
  fetches (history (handleSubmit (st, w)).2.2) = fetches (history w) ∧
  error (handleSubmit (st, w)).2.1 =
    JStr (if String.eqb (newPassword st) (confirmPassword st)
          then "Password must be at least 8 characters long"
          else "Passwords do not match") ∧
  isLoading (handleSubmit (st, w)).2.1 = isLoading st ∧
  (isSuccess st = false →
   render (handleSubmit (st, w)).2.1 =
     FormView (Some (error (handleSubmit (st, w)).2.1))
       (email st) (newPassword st) (confirmPassword st) (isLoading st)
       (if isLoading st then "Resetting..." else "Reset Password")).
Proof.
  intros Hbad.
  unfold handleSubmit, bind, rendered; simpl.
  destruct (String.eqb_spec (newPassword st) (confirmPassword st)) as [Heq|Hne];
    simpl.
  - destruct Hbad as [Hne|Hshort]; [done|].
    assert (Hlt : (Z.of_nat (String.length (newPassword st)) <? 8) = true)
      by (apply Z.ltb_lt; lia).
    rewrite Hlt. simpl. repeat split; try done.
    intros Hform. unfold render; simpl. by rewrite Hform.
  - repeat split; try done.
    intros Hform. unfold render; simpl. by rewrite Hform.
Qed.

Lemma invalid_submission_makes_no_call_witness :
  render (handleSubmit
            ({| email := "a@b.c"; newPassword := "1234567";
                confirmPassword := "1234567"; showPassword := false;
                showConfirmPassword := false; isLoading := false;
                isSuccess := false; error := JStr "" |},
             served ∅ (json_response 200 (JObj [("success", JBool true)])))).2.1
  = FormView (Some (JStr "Password must be at least 8 characters long"))
      "a@b.c" "1234567" "1234567" false "Reset Password".
Proof.
  refine (proj2 (proj2 (proj2 (proj2 (proj2
    (invalid_submission_makes_no_call
       {| email := "a@b.c"; newPassword := "1234567";
          confirmPassword := "1234567"; showPassword := false;
          showConfirmPassword := false; isLoading := false;
          isSuccess := false; error := JStr "" |}
       (served ∅ (json_response 200 (JObj [("success", JBool true)])))
       _))))) _).
  - right. simpl. lia.
  - reflexivity.
Defined.

(** What a valid submission does, in terms of the outcome of the API
    call: loading is switched on and the error cleared, the call is made,
    its outcome decides between the success flag and an error message, and
    loading is switched off. *)
Lemma handleSubmit_valid (st : PageState) (w : World) :
  newPassword st = confirmPassword st →
  (8 ≤ String.length (newPassword st))%nat →
  handleSubmit (st, w) =
    let called :=
      forgotPassword
        {| fp_email := email st; fp_newPassword := newPassword st |} w in
    let finish (success : bool) (err : JsValue) : PageState :=
      {| email := email st; newPassword := newPassword st;
         confirmPassword := confirmPassword st;
         showPassword := showPassword st;
         showConfirmPassword := showConfirmPassword st;
         isLoading := false;
         isSuccess := success;
         error := err |} in
    (Resolved (),
     (match called.1 with
      | Resolved response =>
          match get response "success" with
          | Resolved success =>
              if truthy success then finish true (JStr "")
              else
                match get response "message" with
                | Resolved message =>
                    finish (isSuccess st)
                      (or_else message (JStr "Failed to reset password"))
                | Rejected e =>
                    finish (isSuccess st)
                      (if instanceof_Error e then JStr (message_of e)
                       else JStr "An error occurred")
                end
          | Rejected e =>
              finish (isSuccess st)
                (if instanceof_Error e then JStr (message_of e)
                 else JStr "An error occurred")
          end
      | Rejected e =>
          finish (isSuccess st)
            (if instanceof_Error e then JStr (message_of e)
             else JStr "An error occurred")
      end,
      called.2)).
Proof.
  intros Heq Hlen.
  unfold handleSubmit, bind, rendered; simpl.
  destruct (String.eqb_spec (newPassword st) (confirmPassword st)); [|done].
  assert (Hge : (Z.of_nat (String.length (newPassword st)) <? 8) = false)
    by (apply Z.ltb_ge; lia).
  rewrite Hge. simpl.
  unfold try_finally, try_catch, apiService, bind, await; simpl.
  destruct (forgotPassword _ w) as [[response|e0] w'] eqn:Hcall; simpl;
    [|done].
  destruct (get response "success") as [success|e1]; simpl; [|done].
  destruct (truthy success); simpl; [done|].
  destruct (get response "message") as [message|e2]; done.
Qed.

(** The submit handler always completes: every failure of the call is
    caught and turned into an error message. *)
Lemma handleSubmit_resolves (st : PageState) (w : World) :
  (handleSubmit (st, w)).1 = Resolved ().
Proof.
  destruct (String.eqb_spec (newPassword st) (confirmPassword st)) as [Heq|Hne].
  - destruct (decide (String.length (newPassword st) < 8)%nat) as [Hlt|Hge].
    + unfold handleSubmit, bind, rendered; simpl.
      destruct (String.eqb_spec (newPassword st) (confirmPassword st)); [|done].
      assert (Hb : (Z.of_nat (String.length (newPassword st)) <? 8) = true)
        by (apply Z.ltb_lt; lia).
      by rewrite Hb.
    + rewrite handleSubmit_valid; [done|done|lia].
  - unfold handleSubmit, bind, rendered; simpl.
    by destruct (String.eqb_spec (newPassword st) (confirmPassword st)).
Qed.

(** A call that resolves with [success: false]. *)
Example refused_reset_shows_message :
  render (handleSubmit
            ({| email := "a@b.c"; newPassword := "12345678";
                confirmPassword := "12345678"; showPassword := false;
                showConfirmPassword := false; isLoading := false;
                isSuccess := false; error := JStr "" |},
             served ∅ (json_response 200
               (JObj [("success", JBool false);
                      ("message", JStr "Email not registered")])))).2.1
  = FormView (Some (JStr "Email not registered"))
      "a@b.c" "12345678" "12345678" false "Reset Password".
Proof. reflexivity. Qed.

(** C7, as stated, fails: a forgot-password call that resolves does not
    always lead to the success view. A response whose [success] is false
    leaves the form in place with an error message. *)
Lemma resolved_call_not_always_success :
  ¬ (∀ (st : PageState) (w : World) (response : JsValue),
       newPassword st = confirmPassword st →
       (8 ≤ String.length (newPassword st))%nat →
       (forgotPassword
          {| fp_email := email st; fp_newPassword := newPassword st |} w).1
       = Resolved response →
       isSuccess (handleSubmit (st, w)).2.1 = true ∧
       render (handleSubmit (st, w)).2.1 = SuccessView (email st)).
Proof.
  intros claim.
  destruct (claim
    {| email := "a@b.c"; newPassword := "12345678";
       confirmPassword := "12345678"; showPassword := false;
       showConfirmPassword := false; isLoading := false;
       isSuccess := false; error := JStr "" |}
    (served ∅ (json_response 200
       (JObj [("success", JBool false);
              ("message", JStr "Email not registered")])))
    (JObj [("success", JBool false); ("message", JStr "Email not registered")]))
    as [Hflag _].
  - reflexivity.
  - simpl. lia.
  - reflexivity.
  - vm_compute in Hflag. discriminate Hflag.
Qed.

(** C7, amended: when the forgot-password call of a submission resolves
    with a response whose [success] is truthy, the component ends in the
    success state, no longer loading, and the view it renders is the
    success view showing the e-mail address that was sent in the request. *)
Theorem successful_reset_shows_success_view
    (st : PageState) (w : World) (response success : JsValue) :
  newPassword st = confirmPassword st →
  (8 ≤ String.length (newPassword st))%nat →
  (forgotPassword
     {| fp_email := email st; fp_newPassword := newPassword st |} w).1
  = Resolved response →
  get response "success" = Resolved success →
  truthy success = true →
  (handleSubmit (st, w)).1 = Resolved () ∧
  isSuccess (handleSubmit (st, w)).2.1 = true ∧
  isLoading (handleSubmit (st, w)).2.1 = false ∧
  render (handleSubmit (st, w)).2.1 = SuccessView (email st) ∧
  fetches (history (handleSubmit (st, w)).2.2) =
    (fetches (history w) ++
       [("https://groceryapp-production-d3fc.up.railway.app/api/auth/forgot-password",
         request_sent (localStorage w !! "auth_token")
           (post (JObj [("email", JStr (email st));
                        ("newPassword", JStr (newPassword st))])))])%list.
Proof.
  intros Heq Hlen Hcall Hget Htruthy.
  rewrite handleSubmit_valid by done. simpl.
  rewrite Hcall, Hget, Htruthy. repeat split.
  unfold forgotPassword. by rewrite makeRequest_fetches.
Qed.

Lemma successful_reset_shows_success_view_witness :
  render (handleSubmit
            ({| email := "a@b.c"; newPassword := "12345678";
                confirmPassword := "12345678"; showPassword := false;
                showConfirmPassword := false; isLoading := false;
                isSuccess := false; error := JStr "old error" |},
             served logged_in (json_response 200
               (JObj [("success", JBool true);
                      ("message", JStr "Password updated")])))).2.1
  = SuccessView "a@b.c".
Proof.
  refine (proj1 (proj2 (proj2 (proj2
    (successful_reset_shows_success_view
       {| email := "a@b.c"; newPassword := "12345678";
          confirmPassword := "12345678"; showPassword := false;
          showConfirmPassword := false; isLoading := false;
          isSuccess := false; error := JStr "old error" |}
       (served logged_in (json_response 200
          (JObj [("success", JBool true);
                 ("message", JStr "Password updated")])))
       (JObj [("success", JBool true); ("message", JStr "Password updated")])
       (JBool true) _ _ _ _ _))))).
  - reflexivity.
  - simpl. lia.
  - reflexivity.
  - reflexivity.
  - reflexivity.
Defined.

(** * Further properties of the request wrapper *)

Section MakeRequestOutcomes.

Variables (endpoint : string) (options : RequestInit) (w : World).

(** A failure status never resolves the call. *)
Lemma makeRequest_not_ok_rejects (resp : Response) :
  fetched endpoint options w = Resolved resp →
  ok resp = false →
  ∃ e, (makeRequest endpoint options w).1 = Rejected e.
Proof.
  intros Hnet Hok. unfold fetched, request_sent in Hnet.
  run_makeRequest. rewrite Hnet. unfold on_failure, throw; simpl.
  repeat (case_match; simplify_eq/=; eauto).
Qed.

(** When the body cannot be read, the [catch] block decides. *)
Lemma makeRequest_body_rejected (resp : Response) (e : Thrown) :
  fetched endpoint options w = Resolved resp →
  (if is_json (content_type resp) then json resp = Rejected e
   else text resp = Rejected e) →
  (makeRequest endpoint options w).1 = (on_failure (A:=JsValue) e w).1.
Proof.
  intros Hnet Hbody. unfold fetched, request_sent in Hnet.
  run_makeRequest. rewrite Hnet. simpl.
  destruct (is_json (content_type resp)); rewrite Hbody; simpl;
    unfold on_failure, throw; by case_match.
Qed.

(** The [catch] block always rejects. *)
Lemma on_failure_rejects (e : Thrown) :
  ∃ e', (on_failure (A:=JsValue) e w).1 = Rejected e'.
Proof. unfold on_failure, throw. case_match; eauto. Qed.

End MakeRequestOutcomes.

(** X1: on a failure status with a JSON body that is not [null], the
    call rejects with what [throw new Error(v)] raises for [v] the first
    truthy one among [errorMessage], [message] and the default: an [Error]
    carrying the text of [v], or the [TypeError] of the conversion when
    [v] has no text (an object with an own toString property, or an array
    holding one). Numbers that take part in the text are safe integers. *)
Theorem failure_message_precedence
    (endpoint : string) (options : RequestInit) (w : World)
    (resp : Response) (data e1 e2 : JsValue) :
  fetched endpoint options w = Resolved resp →
  status resp < 200 ∨ 299 < status resp →
  is_json (content_type resp) = true →
  json resp = Resolved data →
  get data "errorMessage" = Resolved e1 →
  get data "message" = Resolved e2 →
  numbers_safe (if truthy e1 then e1
                else if truthy e2 then e2 else JStr "Request failed") = true →
  (makeRequest endpoint options w).1 =
    Rejected
      match toString (if truthy e1 then e1
                      else if truthy e2 then e2 else JStr "Request failed") with
      | Resolved message => Exn Error_ message
      | Rejected _ => conversion_error
      end.
Proof.
  intros Hnet Hstatus Hct Hbody H1 H2 _.
  rewrite (makeRequest_not_ok endpoint options w resp data e1 e2); try done.
  - unfold or_else, raised, new_Error.
    destruct (toString _) as [m|e] eqn:Hv; [done|].
    by rewrite (toString_rejected _ e Hv).
  - by apply ok_false.
  - by rewrite Hct.
Qed.

Lemma failure_message_precedence_witness :
  (verifyOTP (JObj [("otp", JStr "0000")])
     (served ∅ (json_response 422
        (JObj [("errorMessage", JNull); ("message", JStr "Invalid OTP")])))).1
  = Rejected (Exn Error_ "Invalid OTP") ∧
  (verifyOTP (JObj [("otp", JStr "0000")])
     (served ∅ (json_response 422
        (JObj [("errorMessage", JArr [JNum 4; JNull; JStr "x"])])))).1
  = Rejected (Exn Error_ "4,,x") ∧
  (verifyOTP (JObj [("otp", JStr "0000")])
     (served ∅ (json_response 422
        (JObj [("errorMessage", JObj [("toString", JStr "x")])])))).1
  = Rejected (Exn TypeError_ "Cannot convert object to primitive value").
Proof.
  split; [|split].
  - refine (failure_message_precedence "/auth/verify-otp"
              (post (JObj [("otp", JStr "0000")]))
              (served ∅ (json_response 422
                 (JObj [("errorMessage", JNull); ("message", JStr "Invalid OTP")])))
              (json_response 422
                 (JObj [("errorMessage", JNull); ("message", JStr "Invalid OTP")]))
              (JObj [("errorMessage", JNull); ("message", JStr "Invalid OTP")])
              JNull (JStr "Invalid OTP") _ _ _ _ _ _ _);
      first [reflexivity | right; reflexivity].
  - refine (failure_message_precedence "/auth/verify-otp"
              (post (JObj [("otp", JStr "0000")]))
              (served ∅ (json_response 422
                 (JObj [("errorMessage", JArr [JNum 4; JNull; JStr "x"])])))
              (json_response 422
                 (JObj [("errorMessage", JArr [JNum 4; JNull; JStr "x"])]))
              (JObj [("errorMessage", JArr [JNum 4; JNull; JStr "x"])])
              (JArr [JNum 4; JNull; JStr "x"]) JUndefined _ _ _ _ _ _ _);
      first [reflexivity | right; reflexivity].
  - refine (failure_message_precedence "/auth/verify-otp"
              (post (JObj [("otp", JStr "0000")]))
              (served ∅ (json_response 422
                 (JObj [("errorMessage", JObj [("toString", JStr "x")])])))
              (json_response 422
                 (JObj [("errorMessage", JObj [("toString", JStr "x")])]))
              (JObj [("errorMessage", JObj [("toString", JStr "x")])])
              (JObj [("toString", JStr "x")]) JUndefined _ _ _ _ _ _ _);
      first [reflexivity | right; reflexivity].
Defined.

(** X2: on a failure status with a body that is not JSON, the rejection
    message is the body text, and the default when the text is empty. *)
Theorem text_failure_uses_body_text
    (endpoint : string) (options : RequestInit) (w : World)
    (resp : Response) (t : string) :
  fetched endpoint options w = Resolved resp →
  status resp < 200 ∨ 299 < status resp →
  is_json (content_type resp) = false →
  text resp = Resolved t →
  (makeRequest endpoint options w).1 =
    Rejected (Exn Error_ (if String.eqb t "" then "Request failed" else t)).
Proof.
  intros Hnet Hstatus Hct Hbody.
  rewrite (makeRequest_not_ok endpoint options w resp
             (JObj [("message", JStr t)]) JUndefined (JStr t)); try done.
  - unfold or_else; simpl. by destruct (String.eqb t "").
  - by apply ok_false.
  - rewrite Hct. eauto.
Qed.

Lemma text_failure_uses_body_text_witness :
  (getParentCategories (served ∅ (text_response 502 "Bad Gateway"))).1
  = Rejected (Exn Error_ "Bad Gateway") ∧
  (getParentCategories (served ∅ (text_response 502 ""))).1
  = Rejected (Exn Error_ "Request failed").
Proof.
  split.
  - refine (text_failure_uses_body_text "/category/getOnlyParentCategories" get_
              (served ∅ (text_response 502 "Bad Gateway"))
              (text_response 502 "Bad Gateway") "Bad Gateway" _ _ _ _);
      first [reflexivity | right; reflexivity].
  - refine (text_failure_uses_body_text "/category/getOnlyParentCategories" get_
              (served ∅ (text_response 502 ""))
              (text_response 502 "") "" _ _ _ _);
      first [reflexivity | right; reflexivity].
Defined.

(** X3: when the body of a response cannot be read, the call rejects
    whatever the status, also on a 2xx: with the fixed connectivity
    message if the failure is a [TypeError] whose message contains
    "Failed to fetch", otherwise with the failure itself. *)
Theorem unreadable_body_rejects
    (endpoint : string) (options : RequestInit) (w : World)
    (resp : Response) (e : Thrown) :
  fetched endpoint options w = Resolved resp →
  (if is_json (content_type resp) then json resp = Rejected e
   else text resp = Rejected e) →
  (makeRequest endpoint options w).1 =
    if instanceof_TypeError e && includes (message_of e) "Failed to fetch"
    then Rejected (Exn Error_ network_error_message)
    else Rejected e.
Proof.
  intros Hnet Hbody.
  rewrite (makeRequest_body_rejected endpoint options w resp e Hnet Hbody).
  unfold on_failure, throw.
  by destruct (instanceof_TypeError e && includes (message_of e) "Failed to fetch").
Qed.

Lemma unreadable_body_rejects_witness :
  (getAllCategories
     (served ∅ {| status := 200;
                  content_type := Some "application/json";
                  json := Rejected (Exn SyntaxError_ "Unexpected end of JSON input");
                  text := Resolved "" |})).1
  = Rejected (Exn SyntaxError_ "Unexpected end of JSON input").
Proof.
  refine (unreadable_body_rejects "/category/getAll" get_ _
            {| status := 200;
               content_type := Some "application/json";
               json := Rejected (Exn SyntaxError_ "Unexpected end of JSON input");
               text := Resolved "" |}
            (Exn SyntaxError_ "Unexpected end of JSON input") _ _);
    reflexivity.
Defined.

(** X4: the call resolves only when [fetch] resolved with a 2xx response
    whose body could be read, and then with that body. *)
Theorem resolves_only_on_2xx
    (endpoint : string) (options : RequestInit) (w : World) (v : JsValue) :
  (makeRequest endpoint options w).1 = Resolved v →
  ∃ resp : Response,
    fetched endpoint options w = Resolved resp ∧
    200 ≤ status resp ≤ 299 ∧
    (if is_json (content_type resp) then json resp = Resolved v
     else ∃ t, text resp = Resolved t ∧ v = JObj [("message", JStr t)]).
Proof.
  intros Hrun.
  destruct (fetched endpoint options w) as [resp|e] eqn:Hnet.
  - exists resp. split; [done|].
    destruct (ok resp) eqn:Hok.
    + split; [by apply ok_true|].
      destruct (is_json (content_type resp)) eqn:Hct.
      * destruct (json resp) as [d|e] eqn:Hbody.
        -- rewrite (makeRequest_ok endpoint options w resp d) in Hrun;
             [congruence|done|done|by rewrite Hct].
        -- rewrite (makeRequest_body_rejected endpoint options w resp e) in Hrun;
             [|done|by rewrite Hct].
           destruct (on_failure_rejects w e) as [e' He']. congruence.
      * destruct (text resp) as [t|e] eqn:Hbody.
        -- rewrite (makeRequest_ok endpoint options w resp
                      (JObj [("message", JStr t)])) in Hrun;
             [|done|done|rewrite Hct; eauto].
           exists t. split; congruence.
        -- rewrite (makeRequest_body_rejected endpoint options w resp e) in Hrun;
             [|done|by rewrite Hct].
           destruct (on_failure_rejects w e) as [e' He']. congruence.
    + destruct (makeRequest_not_ok_rejects endpoint options w resp Hnet Hok)
        as [e He]. congruence.
  - rewrite (makeRequest_fetch_rejected endpoint options w e Hnet) in Hrun.
    destruct (on_failure_rejects w e) as [e' He']. congruence.
Qed.

Lemma resolves_only_on_2xx_witness :
  ∃ resp : Response,
    fetched "/category/getAll" get_
      (served logged_in (json_response 201 (JObj [("id", JNum 5)])))
    = Resolved resp ∧
    200 ≤ status resp ≤ 299 ∧
    (if is_json (content_type resp)
     then json resp = Resolved (JObj [("id", JNum 5)])
     else ∃ t, text resp = Resolved t ∧
               JObj [("id", JNum 5)] = JObj [("message", JStr t)]).
Proof.
  refine (resolves_only_on_2xx "/category/getAll" get_
            (served logged_in (json_response 201 (JObj [("id", JNum 5)])))
            (JObj [("id", JNum 5)]) _).
  reflexivity.
Defined.

(** *** Substrings *)

Lemma string_app_cons (c : ascii) (a b : string) :
  String c a ++ b = String c (a ++ b).
Proof. reflexivity. Qed.

Lemma string_app_nil (b : string) : "" ++ b = b.
Proof. reflexivity. Qed.

Lemma prefix_iff (p s : string) :
  String.prefix p s = true ↔ ∃ b, s = p ++ b.
Proof.
  revert s. induction p as [|c p IH]; intros [|c' s]; simpl.
  - split; eauto.
  - split; eauto.
  - split; [done|]. by intros [b ?].
  - setoid_rewrite string_app_cons.
    destruct (ascii_dec c c') as [->|Hne].
    + rewrite IH. split; intros [b Hb]; exists b; congruence.
    + split; [done|]. intros [b [= ? _]]. done.
Qed.

Lemma includes_iff (s sub : string) :
  includes s sub = true ↔ ∃ a b, s = a ++ sub ++ b.
Proof.
  induction s as [|c s IH].
  - change (includes "" sub) with (String.prefix sub "" || false).
    rewrite orb_false_r, prefix_iff. split.
    + intros [b Hb]. by exists "", b.
    + intros ([|c a] & b & Hb); [by exists b|done].
  - change (includes (String c s) sub)
      with (String.prefix sub (String c s) || includes s sub).
    rewrite orb_true_iff, prefix_iff, IH. split.
    + intros [[b Hb]|(a & b & ->)]; [by exists "", b|by exists (String c a), b].
    + intros ([|c' a] & b & Hb); [left; by exists b|].
      right. rewrite string_app_cons in Hb. injection Hb as _ ->.
      by exists a, b.
Qed.

(** X5: when [fetch] rejects with a [TypeError] of message [m], the call
    reports the fixed connectivity message exactly when "Failed to fetch"
    occurs somewhere in [m]. *)
Theorem network_message_iff_failed_to_fetch
    (endpoint : string) (options : RequestInit) (w : World) (m : string) :
  fetched endpoint options w = Rejected (Exn TypeError_ m) →
  (makeRequest endpoint options w).1
    = Rejected (Exn Error_ network_error_message)
  ↔ ∃ a b, m = a ++ "Failed to fetch" ++ b.
Proof.
  intros Hnet. rewrite <-includes_iff.
  rewrite (makeRequest_fetch_rejected _ _ _ _ Hnet).
  unfold on_failure, throw; simpl.
  destruct (includes m "Failed to fetch"); simpl; split; done.
Qed.

Lemma network_message_iff_failed_to_fetch_witness :
  (login (JObj [])
     (unreachable ∅ (Exn TypeError_ "Oops: Failed to fetch!"))).1
  = Rejected (Exn Error_ network_error_message).
Proof.
  refine (proj2 (network_message_iff_failed_to_fetch "/auth/login"
            (post (JObj []))
            (unreachable ∅ (Exn TypeError_ "Oops: Failed to fetch!"))
            "Oops: Failed to fetch!" _) _).
  - reflexivity.
  - by exists "Oops: ", "!".
Defined.

(** * The public methods *)

(** X6: every public method, called with identifiers that are safe
    integers, makes exactly one request, to the base URL followed by its
    endpoint, with exactly the default headers and none of its own; the
    reading methods use GET without a body, the others send their
    argument as the body with POST, or DELETE for [deleteCategory]; local
    storage is left as it was. *)
Theorem every_method_sends_one_request (c : ApiCall) (w : World) :
  ids_safe c = true →
  ∃ init : RequestInit,
    fetches (history (invoke c w).2) =
      (fetches (history w) ++ [((API_BASE_URL ++ endpoint_of c)%string, init)])%list ∧
    localStorage (invoke c w).2 = localStorage w ∧
    headers init = Some (HRecord (defaultHeaders (localStorage w !! "auth_token"))) ∧
    match c with
    | Login d | Signup d | RequestOTP d | VerifyOTP d | CreateUpdateCategory d =>
        method init = Some "POST" ∧ body init = Some d
    | ForgotPassword d =>
        method init = Some "POST" ∧
        body init = Some (JObj [("email", JStr (fp_email d));
                                ("newPassword", JStr (fp_newPassword d))])
    | DeleteCategory d => method init = Some "DELETE" ∧ body init = Some d
    | GetUsers _ | GetAllCategories | GetParentCategories | GetSubCategories _ =>
        method init = Some "GET" ∧ body init = None
    end.
Proof.
  intros _. eexists. rewrite invoke_delegates.
  split; [apply makeRequest_fetches|].
  split; [by rewrite makeRequest_world|].
  unfold request_sent, with_headers, merge_headers.
  destruct c; simpl; by rewrite (left_id_L ∅ (∪)).
Qed.

Lemma every_method_sends_one_request_witness :
  ∃ init : RequestInit,
    fetches (history (getSubCategories 12 (served logged_in
                        (json_response 200 (JArr [])))).2) =
      [("https://groceryapp-production-d3fc.up.railway.app/api/category/getSubCategories/12",
        init)] ∧
    method init = Some "GET" ∧ body init = None.
Proof.
  destruct (every_method_sends_one_request (GetSubCategories 12)
              (served logged_in (json_response 200 (JArr []))) eq_refl)
    as (init & Hfetch & _ & _ & Hmethod & Hbody).
  exists init. split; [exact Hfetch|]. split; [exact Hmethod|exact Hbody].
Defined.

(** * The form serialiser *)

Lemma chars_app (a b : string) : chars (a ++ b) = (chars a ++ chars b)%list.
Proof.
  unfold chars. induction a as [|c a IH]; [done|].
  rewrite string_app_cons. simpl. by rewrite IH.
Qed.

Lemma string_app_assoc (a b c : string) : (a ++ b) ++ c = a ++ (b ++ c).
Proof.
  induction a as [|x a IH]; [done|]. by rewrite !string_app_cons, IH.
Qed.

Lemma string_length_app (a b : string) :
  String.length (a ++ b) = (String.length a + String.length b)%nat.
Proof.
  induction a as [|x a IH]; [done|]. rewrite string_app_cons. simpl.
  by rewrite IH.
Qed.

(** What the serialiser writes for one code unit. *)
Lemma urlencode_cons (c : ascii) (s : string) :
  urlencode (String c s) =
    String.concat "" (encode_byte <$> utf8_bytes c) ++ urlencode s.
Proof. reflexivity. Qed.

Lemma encode_unit_alphabet (c : ascii) :
  forallb encoded_char
    (chars (String.concat "" (encode_byte <$> utf8_bytes c))) = true.
Proof. destruct c as [[] [] [] [] [] [] [] []]; vm_compute; reflexivity. Qed.

Lemma encoded_char_not_delimiter (c : ascii) :
  encoded_char c = true → delimiter c = false.
Proof.
  destruct c as [[] [] [] [] [] [] [] []]; vm_compute; intros H;
    first [reflexivity | discriminate H].
Qed.

Lemma encode_unit_unreserved (c : ascii) :
  unreserved c = true →
  String.concat "" (encode_byte <$> utf8_bytes c) = String c "".
Proof.
  destruct c as [[] [] [] [] [] [] [] []]; vm_compute; intros H;
    first [reflexivity | discriminate H].
Qed.

Lemma encode_unit_length (c : ascii) :
  (1 ≤ String.length (String.concat "" (encode_byte <$> utf8_bytes c)) ≤ 6)%nat.
Proof. destruct c as [[] [] [] [] [] [] [] []]; vm_compute; lia. Qed.

(** An encoded name or value consists of ASCII letters, digits and the
    characters * - . _ + percent only; in particular it contains none of
    the delimiters ampersand, equals, question mark, hash, slash and
    space. *)
Lemma urlencode_alphabet (s : string) :
  forallb encoded_char (chars (urlencode s)) = true ∧
  forallb (λ c, negb (delimiter c)) (chars (urlencode s)) = true.
Proof.
  assert (Hall : forallb encoded_char (chars (urlencode s)) = true).
  { induction s as [|c s IH]; [done|].
    rewrite urlencode_cons, chars_app, forallb_app, IH.
    by rewrite encode_unit_alphabet. }
  split; [done|].
  apply forallb_forall. intros c Hc.
  rewrite forallb_forall in Hall.
  by rewrite (encoded_char_not_delimiter c (Hall c Hc)).
Qed.

(** A string of unreserved characters is encoded as itself. *)
Lemma urlencode_unreserved_identity (s : string) :
  forallb unreserved (chars s) = true → urlencode s = s.
Proof.
  induction s as [|c s IH]; [done|].
  simpl. intros [Hc Hs]%andb_true_iff.
  rewrite (encode_unit_unreserved c Hc), string_app_cons, string_app_nil.
  by rewrite IH.
Qed.

(** Encoding distributes over concatenation. *)
Lemma urlencode_app (a b : string) :
  urlencode (a ++ b) = urlencode a ++ urlencode b.
Proof.
  induction a as [|c a IH]; [done|].
  by rewrite string_app_cons, !urlencode_cons, IH, string_app_assoc.
Qed.

(** Encoding never shortens a string, and lengthens it at most six times. *)
Lemma urlencode_length (s : string) :
  (String.length s ≤ String.length (urlencode s) ≤ 6 * String.length s)%nat.
Proof.
  induction s as [|c s IH]; [simpl; lia|].
  rewrite urlencode_cons, string_length_app.
  pose proof (encode_unit_length c).
  change (String.length (String c s)) with (S (String.length s)). lia.
Qed.

(** * The endpoint of [getUsers] *)

Lemma pretty_N_go_unreserved (x : N) (s : string) :
  forallb unreserved (chars s) = true →
  forallb unreserved (chars (pretty_N_go x s)) = true.
Proof.
  revert s. induction (N.lt_wf_0 x) as [x _ IH]; intros s Hs.
  destruct (decide (x = 0)%N) as [->|Hpos]; [by rewrite pretty_N_go_0|].
  rewrite pretty_N_go_step by lia.
  apply IH; [apply N.div_lt; lia|].
  simpl. rewrite Hs, andb_true_r.
  unfold pretty_N_char. by repeat case_match.
Qed.

(** The decimal text of an integer consists of digits and the minus sign. *)
Lemma pretty_Z_unreserved (n : Z) :
  forallb unreserved (chars (pretty n)) = true.
Proof.
  assert (HN : ∀ x : N, forallb unreserved (chars (pretty x)) = true).
  { intros x. unfold pretty, pretty_N. case_decide; [done|].
    by apply pretty_N_go_unreserved. }
  destruct n as [|p|p]; [done|apply (HN (Npos p))|].
  change (pretty (Z.neg p)) with ("-" ++ pretty (Npos p)).
  rewrite chars_app, forallb_app, HN. done.
Qed.

Lemma queryString_of_one (k v : string) :
  queryString_of [(k, v)] = urlencode k ++ "=" ++ urlencode v.
Proof. reflexivity. Qed.

Lemma queryString_of_two (k1 v1 k2 v2 : string) :
  queryString_of [(k1, v1); (k2, v2)] =
    (urlencode k1 ++ "=" ++ urlencode v1) ++ "&" ++
    (urlencode k2 ++ "=" ++ urlencode v2).
Proof. reflexivity. Qed.

(** X7: for a non-empty role [r] and a non-zero user id [n] that is a
    safe integer, the endpoint
    carries the encoded role first and the decimal user id second, each
    alone when the other is absent; the encoded role contains no
    ampersand, equals sign, question mark, hash, slash or space, so the
    text of a role cannot add or end a parameter. *)
Theorem getUsers_endpoint_shape (r : string) (n : Z) :
  r ≠ "" → n ≠ 0 → safe_integer n = true →
  getUsers_endpoint (Some {| role := Some r; user_id := Some n |})
  = "/auth/getUsers?role=" ++ urlencode r ++ "&user_id=" ++ pretty n ∧
  getUsers_endpoint (Some {| role := Some r; user_id := None |})
  = "/auth/getUsers?role=" ++ urlencode r ∧
  getUsers_endpoint (Some {| role := None; user_id := Some n |})
  = "/auth/getUsers?user_id=" ++ pretty n ∧
  forallb (λ c, negb (delimiter c)) (chars (urlencode r)) = true.
Proof.
  intros Hr Hn _.
  assert (Hrole : String.eqb r "" = false) by by apply String.eqb_neq.
  assert (Hid : (n =? 0) = false) by by apply Z.eqb_neq.
  assert (Hkr : urlencode "role" = "role") by reflexivity.
  assert (Hku : urlencode "user_id" = "user_id") by reflexivity.
  pose proof (urlencode_unreserved_identity _ (pretty_Z_unreserved n)) as Hpn.
  pose proof (proj2 (urlencode_alphabet r)) as Hsafe.
  unfold getUsers_endpoint, getUsers_queryParams, truthy_role, truthy_user_id,
    append; simpl.
  rewrite Hrole, Hid. simpl.
  rewrite queryString_of_two, !queryString_of_one, Hkr, Hku, Hpn.
  repeat split; try exact Hsafe;
    rewrite ?string_app_assoc, ?string_app_cons, ?string_app_nil; simpl;
    by rewrite ?string_app_cons, ?string_app_nil.
Qed.

Lemma getUsers_endpoint_shape_witness :
  getUsers_endpoint (Some {| role := Some "a&b c"; user_id := Some (-7) |})
  = "/auth/getUsers?role=a%26b+c&user_id=-7".
Proof.
  etrans.
  - refine (proj1 (getUsers_endpoint_shape "a&b c" (-7) _ _ _)); done.
  - vm_compute. reflexivity.
Defined.

(** X8: a role made of ASCII letters, digits and the characters * - . _
    appears in the endpoint as it is. *)
Theorem getUsers_plain_role_verbatim (r : string) :
  r ≠ "" →
  forallb unreserved (chars r) = true →
  getUsers_endpoint (Some {| role := Some r; user_id := None |})
  = "/auth/getUsers?role=" ++ r.
Proof.
  intros Hr Hplain.
  assert (Hrole : String.eqb r "" = false) by by apply String.eqb_neq.
  assert (Hkr : urlencode "role" = "role") by reflexivity.
  unfold getUsers_endpoint, getUsers_queryParams, truthy_role, truthy_user_id,
    append; simpl.
  rewrite Hrole. simpl.
  rewrite queryString_of_one, Hkr, (urlencode_unreserved_identity r Hplain).
  rewrite ?string_app_assoc, ?string_app_cons, ?string_app_nil; simpl.
  by rewrite ?string_app_cons, ?string_app_nil.
Qed.

Lemma getUsers_plain_role_verbatim_witness :
  getUsers_endpoint (Some {| role := Some "shop_owner"; user_id := None |})
  = "/auth/getUsers?role=shop_owner".
Proof.
  refine (getUsers_plain_role_verbatim "shop_owner" _ _); done.
Defined.

(** * Further properties of the password-reset form *)

(** What a submission that fails validation does. *)
Lemma handleSubmit_invalid (st : PageState) (w : World) :
  newPassword st ≠ confirmPassword st ∨
  (String.length (newPassword st) < 8)%nat →
  handleSubmit (st, w) =
    (Resolved (),
     ({| email := email st; newPassword := newPassword st;
         confirmPassword := confirmPassword st;
         showPassword := showPassword st;
         showConfirmPassword := showConfirmPassword st;
         isLoading := isLoading st; isSuccess := isSuccess st;
         error := JStr (if String.eqb (newPassword st) (confirmPassword st)
                        then "Password must be at least 8 characters long"
                        else "Passwords do not match") |}, w)).
Proof.
  intros Hbad. unfold handleSubmit, bind, rendered; simpl.
  destruct (String.eqb_spec (newPassword st) (confirmPassword st)) as [Heq|Hne];
    simpl; [|done].
  destruct Hbad as [Hne|Hshort]; [done|].
  assert (Hlt : (Z.of_nat (String.length (newPassword st)) <? 8) = true)
    by (apply Z.ltb_lt; lia).
  by rewrite Hlt.
Qed.

(** A submission either fails validation or passes it. *)
Lemma validation_cases (st : PageState) :
  (newPassword st ≠ confirmPassword st ∨
   (String.length (newPassword st) < 8)%nat) ∨
  (newPassword st = confirmPassword st ∧
   (8 ≤ String.length (newPassword st))%nat).
Proof.
  destruct (decide (newPassword st = confirmPassword st)); [|by left; left].
  destruct (decide (String.length (newPassword st) < 8)%nat);
    [by left; right|right; split; [done|lia]].
Qed.

(** The request of a submission made from state [st]. *)
Lemma forgotPassword_world (st : PageState) (w : World) :
  (forgotPassword
     {| fp_email := email st; fp_newPassword := newPassword st |} w).2
  = after_call "/auth/forgot-password"
      (post (JObj [("email", JStr (email st));
                   ("newPassword", JStr (newPassword st))])) w.
Proof. unfold forgotPassword. by rewrite makeRequest_world. Qed.

(** X9: a submission never throws and never changes what the user
    typed or the visibility toggles; it leaves local storage as it was,
    and it adds to the history either nothing or one read of the token
    followed by one request. *)
Theorem handleSubmit_frame (st : PageState) (w : World) :
  (handleSubmit (st, w)).1 = Resolved () ∧
  email (handleSubmit (st, w)).2.1 = email st ∧
  newPassword (handleSubmit (st, w)).2.1 = newPassword st ∧
  confirmPassword (handleSubmit (st, w)).2.1 = confirmPassword st ∧
  showPassword (handleSubmit (st, w)).2.1 = showPassword st ∧
  showConfirmPassword (handleSubmit (st, w)).2.1 = showConfirmPassword st ∧
  localStorage (handleSubmit (st, w)).2.2 = localStorage w ∧
  (history (handleSubmit (st, w)).2.2 = history w ∨
   ∃ init : RequestInit,
     history (handleSubmit (st, w)).2.2 =
       (history w ++
          [EvStorage (GetItem "auth_token");
           EvFetch "https://groceryapp-production-d3fc.up.railway.app/api/auth/forgot-password"
             init])%list).
Proof.
  destruct (validation_cases st) as [Hbad|[Heq Hlen]].
  - rewrite (handleSubmit_invalid st w Hbad). simpl. repeat split; eauto.
  - rewrite (handleSubmit_valid st w Heq Hlen). simpl.
    rewrite forgotPassword_world.
    repeat split; try (repeat case_match; done).
    right. eexists. unfold after_call, record; simpl.
    by rewrite <-app_assoc.
Qed.

(** X10: a submission never leaves the success state: once [isSuccess]
    is set, it stays set. *)
Theorem success_is_never_undone (st : PageState) (w : World) :
  isSuccess st = true →
  isSuccess (handleSubmit (st, w)).2.1 = true ∧
  render (handleSubmit (st, w)).2.1 = SuccessView (email st).
Proof.
  intros Hs.
  assert (Hflag : isSuccess (handleSubmit (st, w)).2.1 = true).
  { destruct (validation_cases st) as [Hbad|[Heq Hlen]].
    - by rewrite (handleSubmit_invalid st w Hbad).
    - rewrite (handleSubmit_valid st w Heq Hlen). simpl.
      repeat case_match; done. }
  split; [done|]. unfold render. rewrite Hflag.
  destruct (validation_cases st) as [Hbad|[Heq Hlen]].
  - by rewrite (handleSubmit_invalid st w Hbad).
  - rewrite (handleSubmit_valid st w Heq Hlen). simpl.
    repeat case_match; done.
Qed.

Lemma success_is_never_undone_witness :
  render (handleSubmit
            ({| email := "a@b.c"; newPassword := "12345678";
                confirmPassword := "12345678"; showPassword := false;
                showConfirmPassword := false; isLoading := false;
                isSuccess := true; error := JStr "" |},
             served ∅ (json_response 500
               (JObj [("errorMessage", JStr "Server down")])))).2.1
  = SuccessView "a@b.c".
Proof.
  refine (proj2 (success_is_never_undone
    {| email := "a@b.c"; newPassword := "12345678";
       confirmPassword := "12345678"; showPassword := false;
       showConfirmPassword := false; isLoading := false;
       isSuccess := true; error := JStr "" |}
    (served ∅ (json_response 500
       (JObj [("errorMessage", JStr "Server down")]))) _)).
  reflexivity.
Defined.

(** X11: a submission that passes validation reads the token and sends
    exactly one request, whatever comes back: a POST to the
    forgot-password endpoint whose body holds the e-mail address and the
    new password (and not the confirmation), with the default headers;
    afterwards the form is no longer loading. *)
Theorem valid_submission_sends_one_request (st : PageState) (w : World) :
  newPassword st = confirmPassword st →
  (8 ≤ String.length (newPassword st))%nat →
  history (handleSubmit (st, w)).2.2 =
    (history w ++
       [EvStorage (GetItem "auth_token");
        EvFetch "https://groceryapp-production-d3fc.up.railway.app/api/auth/forgot-password"
          {| method := Some "POST";
             body := Some (JObj [("email", JStr (email st));
                                 ("newPassword", JStr (newPassword st))]);
             headers := Some (HRecord (defaultHeaders
                                         (localStorage w !! "auth_token"))) |}])%list ∧
  isLoading (handleSubmit (st, w)).2.1 = false.
Proof.
  intros Heq Hlen. rewrite (handleSubmit_valid st w Heq Hlen). simpl.
  rewrite forgotPassword_world. split.
  - unfold after_call, record; simpl.
    rewrite request_sent_defaults by done. by rewrite <-app_assoc.
  - repeat case_match; done.
Qed.

Lemma valid_submission_sends_one_request_witness :
  isLoading (handleSubmit
    ({| email := "a@b.c"; newPassword := "12345678";
        confirmPassword := "12345678"; showPassword := true;
        showConfirmPassword := false; isLoading := false;
        isSuccess := false; error := JStr "" |},
     unreachable logged_in (Exn TypeError_ "Load failed"))).2.1 = false.
Proof.
  refine (proj2 (valid_submission_sends_one_request
    {| email := "a@b.c"; newPassword := "12345678";
       confirmPassword := "12345678"; showPassword := true;
       showConfirmPassword := false; isLoading := false;
       isSuccess := false; error := JStr "" |}
    (unreachable logged_in (Exn TypeError_ "Load failed")) _ _)).
  - reflexivity.
  - simpl. lia.
Defined.

(** X12: when the call of a valid submission rejects, the form stays,
    no longer loading, and its error is the message of the error object,
    or "An error occurred" for a rejection that is not an error object. *)
Theorem rejected_call_sets_error (st : PageState) (w : World) (e : Thrown) :
  newPassword st = confirmPassword st →
  (8 ≤ String.length (newPassword st))%nat →
  (forgotPassword
     {| fp_email := email st; fp_newPassword := newPassword st |} w).1
  = Rejected e →
  error (handleSubmit (st, w)).2.1 =
    JStr (if instanceof_Error e then message_of e else "An error occurred") ∧
  isSuccess (handleSubmit (st, w)).2.1 = isSuccess st ∧
  isLoading (handleSubmit (st, w)).2.1 = false.
Proof.
  intros Heq Hlen Hcall. rewrite (handleSubmit_valid st w Heq Hlen). simpl.
  rewrite Hcall. simpl. by destruct (instanceof_Error e).
Qed.

Lemma rejected_call_sets_error_witness :
  error (handleSubmit
    ({| email := "a@b.c"; newPassword := "12345678";
        confirmPassword := "12345678"; showPassword := false;
        showConfirmPassword := false; isLoading := false;
        isSuccess := false; error := JStr "" |},
     unreachable ∅ (NonError (JStr "aborted")))).2.1
  = JStr "An error occurred".
Proof.
  refine (proj1 (rejected_call_sets_error
    {| email := "a@b.c"; newPassword := "12345678";
       confirmPassword := "12345678"; showPassword := false;
       showConfirmPassword := false; isLoading := false;
       isSuccess := false; error := JStr "" |}
    (unreachable ∅ (NonError (JStr "aborted")))
    (NonError (JStr "aborted")) _ _ _)).
  - reflexivity.
  - simpl. lia.
  - reflexivity.
Defined.

(** X13: the message of a failure response reaches the user: when the
    server answers a valid submission with a failure status and a JSON
    body whose [errorMessage] is a non-empty string, the form shows that
    string in its banner, enabled again for another attempt. *)
Theorem server_error_reaches_banner
    (st : PageState) (w : World) (resp : Response)
    (props : list (string * JsValue)) (X : string) :
  newPassword st = confirmPassword st →
  (8 ≤ String.length (newPassword st))%nat →
  isSuccess st = false →
  fetched "/auth/forgot-password"
    (post (JObj [("email", JStr (email st));
                 ("newPassword", JStr (newPassword st))])) w
  = Resolved resp →
  status resp < 200 ∨ 299 < status resp →
  is_json (content_type resp) = true →
  json resp = Resolved (JObj props) →
  assoc "errorMessage" props = Some (JStr X) →
  X ≠ "" →
  render (handleSubmit (st, w)).2.1 =
    FormView (Some (JStr X)) (email st) (newPassword st) (confirmPassword st)
      false "Reset Password".
Proof.
  intros Heq Hlen Hform Hnet Hstatus Hct Hbody HX Hne.
  rewrite (handleSubmit_valid st w Heq Hlen). simpl.
  unfold forgotPassword, forgot_data; simpl.
  rewrite (makeRequest_not_ok _ _ w resp (JObj props) (JStr X)
             (default JUndefined (assoc "message" props)));
    [|done|by apply ok_false|by rewrite Hct|by simpl; rewrite HX|done].
  assert (Hor : ∀ v, or_else (JStr X) v = JStr X).
  { intros v. unfold or_else; simpl. by destruct (String.eqb_spec X ""). }
  rewrite Hor. unfold render; simpl. rewrite Hform.
  by destruct (String.eqb_spec X "").
Qed.

Lemma server_error_reaches_banner_witness :
  render (handleSubmit
    ({| email := "a@b.c"; newPassword := "12345678";
        confirmPassword := "12345678"; showPassword := false;
        showConfirmPassword := false; isLoading := false;
        isSuccess := false; error := JStr "" |},
     served ∅ (json_response 404
       (JObj [("errorCode", JNum 1);
              ("errorMessage", JStr "User not found")])))).2.1
  = FormView (Some (JStr "User not found")) "a@b.c" "12345678" "12345678"
      false "Reset Password".
Proof.
  refine (server_error_reaches_banner
    {| email := "a@b.c"; newPassword := "12345678";
       confirmPassword := "12345678"; showPassword := false;
       showConfirmPassword := false; isLoading := false;
       isSuccess := false; error := JStr "" |}
    (served ∅ (json_response 404
       (JObj [("errorCode", JNum 1); ("errorMessage", JStr "User not found")])))
    (json_response 404
       (JObj [("errorCode", JNum 1); ("errorMessage", JStr "User not found")]))
    [("errorCode", JNum 1); ("errorMessage", JStr "User not found")]
    "User not found" _ _ _ _ _ _ _ _ _);
    first [reflexivity | simpl; lia | right; reflexivity | discriminate].
Defined.

(** X14: when the network is down in the way the wrapper recognises
    ([fetch] rejects with a [TypeError] whose message contains "Failed to
    fetch"), the banner of the form shows the fixed connectivity
    message. *)
Theorem offline_reaches_banner (st : PageState) (w : World) (m : string) :
  newPassword st = confirmPassword st →
  (8 ≤ String.length (newPassword st))%nat →
  isSuccess st = false →
  fetched "/auth/forgot-password"
    (post (JObj [("email", JStr (email st));
                 ("newPassword", JStr (newPassword st))])) w
  = Rejected (Exn TypeError_ m) →
  includes m "Failed to fetch" = true →
  render (handleSubmit (st, w)).2.1 =
    FormView (Some (JStr network_error_message))
      (email st) (newPassword st) (confirmPassword st) false "Reset Password".
Proof.
  intros Heq Hlen Hform Hnet Hm.
  rewrite (handleSubmit_valid st w Heq Hlen). simpl.
  unfold forgotPassword, forgot_data; simpl.
  rewrite (makeRequest_fetch_rejected _ _ w _ Hnet).
  unfold on_failure, throw; simpl. rewrite Hm. simpl.
  unfold render; simpl. by rewrite Hform.
Qed.

Lemma offline_reaches_banner_witness :
  render (handleSubmit
    ({| email := "a@b.c"; newPassword := "12345678";
        confirmPassword := "12345678"; showPassword := false;
        showConfirmPassword := false; isLoading := false;
        isSuccess := false; error := JStr "" |},
     unreachable ∅ (Exn TypeError_ "Failed to fetch"))).2.1
  = FormView (Some (JStr network_error_message)) "a@b.c" "12345678" "12345678"
      false "Reset Password".
Proof.
  refine (offline_reaches_banner
    {| email := "a@b.c"; newPassword := "12345678";
       confirmPassword := "12345678"; showPassword := false;
       showConfirmPassword := false; isLoading := false;
       isSuccess := false; error := JStr "" |}
    (unreachable ∅ (Exn TypeError_ "Failed to fetch")) "Failed to fetch"
    _ _ _ _ _);
    first [reflexivity | simpl; lia].
Defined.

(** X15: when the call resolves with a response whose [success] is
    falsy, the success flag is left alone and the error is the response's
    [message] if that is truthy, otherwise "Failed to reset password". *)
Theorem refused_reset_sets_error
    (st : PageState) (w : World) (response success message : JsValue) :
  newPassword st = confirmPassword st →
  (8 ≤ String.length (newPassword st))%nat →
  (forgotPassword
     {| fp_email := email st; fp_newPassword := newPassword st |} w).1
  = Resolved response →
  get response "success" = Resolved success →
  truthy success = false →
  get response "message" = Resolved message →
  error (handleSubmit (st, w)).2.1 =
    (if truthy message then message else JStr "Failed to reset password") ∧
  isSuccess (handleSubmit (st, w)).2.1 = isSuccess st ∧
  isLoading (handleSubmit (st, w)).2.1 = false.
Proof.
  intros Heq Hlen Hcall Hs Hfalsy Hm.
  rewrite (handleSubmit_valid st w Heq Hlen). simpl.
  by rewrite Hcall, Hs, Hfalsy, Hm.
Qed.

Lemma refused_reset_sets_error_witness :
  error (handleSubmit
    ({| email := "a@b.c"; newPassword := "12345678";
        confirmPassword := "12345678"; showPassword := false;
        showConfirmPassword := false; isLoading := false;
        isSuccess := false; error := JStr "" |},
     served ∅ (json_response 200
       (JObj [("errorCode", JNum 0); ("data", JNull)])))).2.1
  = JStr "Failed to reset password".
Proof.
  refine (proj1 (refused_reset_sets_error
    {| email := "a@b.c"; newPassword := "12345678";
       confirmPassword := "12345678"; showPassword := false;
       showConfirmPassword := false; isLoading := false;
       isSuccess := false; error := JStr "" |}
    (served ∅ (json_response 200
       (JObj [("errorCode", JNum 0); ("data", JNull)])))
    (JObj [("errorCode", JNum 0); ("data", JNull)])
    JUndefined JUndefined _ _ _ _ _ _));
    first [reflexivity | simpl; lia].
Defined.

(** X16: when the call resolves with [null] (a 2xx response whose JSON
    body is null), the read of [success] throws inside the [try] block;
    the form stays and its error is the text of that [TypeError]. *)
Theorem null_response_sets_error (st : PageState) (w : World) :
  newPassword st = confirmPassword st →
  (8 ≤ String.length (newPassword st))%nat →
  (forgotPassword
     {| fp_email := email st; fp_newPassword := newPassword st |} w).1
  = Resolved JNull →
  error (handleSubmit (st, w)).2.1 =
    JStr "Cannot read properties of null (reading 'success')" ∧
  isSuccess (handleSubmit (st, w)).2.1 = isSuccess st ∧
  isLoading (handleSubmit (st, w)).2.1 = false.
Proof.
  intros Heq Hlen Hcall.
  rewrite (handleSubmit_valid st w Heq Hlen). simpl.
  by rewrite Hcall.
Qed.

Lemma null_response_sets_error_witness :
  isSuccess (handleSubmit
    ({| email := "a@b.c"; newPassword := "12345678";
        confirmPassword := "12345678"; showPassword := false;
        showConfirmPassword := false; isLoading := false;
        isSuccess := false; error := JStr "" |},
     served ∅ (json_response 200 JNull))).2.1 = false.
Proof.
  refine (proj1 (proj2 (null_response_sets_error
    {| email := "a@b.c"; newPassword := "12345678";
       confirmPassword := "12345678"; showPassword := false;
       showConfirmPassword := false; isLoading := false;
       isSuccess := false; error := JStr "" |}
    (served ∅ (json_response 200 JNull)) _ _ _)));
    first [reflexivity | simpl; lia].
Defined.

(** * The form's events in sequence *)

(** Typing into the three fields sets them and nothing else. *)
Lemma typing_runs {A} (st : PageState) (w : World) (e p c : string)
    (k : Handler A) :
  (onChange_email e ;;! onChange_newPassword p ;;!
   onChange_confirmPassword c ;;! k) (st, w)
  = k ({| email := e; newPassword := p; confirmPassword := c;
          showPassword := showPassword st;
          showConfirmPassword := showConfirmPassword st;
          isLoading := isLoading st; isSuccess := isSuccess st;
          error := error st |}, w).
Proof. reflexivity. Qed.

(** Clicking both visibility toggles flips both flags and nothing else. *)
Lemma toggling_runs {A} (st : PageState) (w : World) (k : Handler A) :
  (onClick_showPassword ;;! onClick_showConfirmPassword ;;! k) (st, w)
  = k ({| email := email st; newPassword := newPassword st;
          confirmPassword := confirmPassword st;
          showPassword := negb (showPassword st);
          showConfirmPassword := negb (showConfirmPassword st);
          isLoading := isLoading st; isSuccess := isSuccess st;
          error := error st |}, w).
Proof. reflexivity. Qed.

(** X17: typing an e-mail address, a new password of at least 8
    characters and the same password as confirmation, then submitting,
    ends in the success view for that address whenever the call resolves
    with a truthy [success], whatever the fields held before. *)
Theorem typing_then_submitting_succeeds
    (st : PageState) (w : World) (e p : string) (response success : JsValue) :
  (8 ≤ String.length p)%nat →
  (forgotPassword {| fp_email := e; fp_newPassword := p |} w).1
  = Resolved response →
  get response "success" = Resolved success →
  truthy success = true →
  ((onChange_email e ;;! onChange_newPassword p ;;!
    onChange_confirmPassword p ;;! handleSubmit) (st, w)).1 = Resolved () ∧
  render ((onChange_email e ;;! onChange_newPassword p ;;!
           onChange_confirmPassword p ;;! handleSubmit) (st, w)).2.1
  = SuccessView e.
Proof.
  intros Hlen Hcall Hs Htruthy.
  rewrite typing_runs, handleSubmit_valid by done. simpl.
  by rewrite Hcall, Hs, Htruthy.
Qed.

Lemma typing_then_submitting_succeeds_witness :
  render ((onChange_email "new@user.io" ;;! onChange_newPassword "s3cretPass" ;;!
           onChange_confirmPassword "s3cretPass" ;;! handleSubmit)
            (initial, served ∅ (json_response 200
               (JObj [("success", JBool true)])))).2.1
  = SuccessView "new@user.io".
Proof.
  refine (proj2 (typing_then_submitting_succeeds initial
    (served ∅ (json_response 200 (JObj [("success", JBool true)])))
    "new@user.io" "s3cretPass"
    (JObj [("success", JBool true)]) (JBool true) _ _ _ _));
    first [reflexivity | simpl; lia].
Defined.

(** X18: each visibility toggle flips the type of its own password
    input between password and text and leaves the other input's type
    alone; the toggles do not influence a submission: after clicking
    both, a submission has the same outcome, the same effect on the
    browser and the same resulting view as without, and both input types
    are the flipped ones. *)
Theorem toggles_do_not_affect_submission (st : PageState) (w : World) :
  newPassword_type (onClick_showPassword (st, w)).2.1
  = (if showPassword st then "password" else "text") ∧
  confirmPassword_type (onClick_showPassword (st, w)).2.1
  = confirmPassword_type st ∧
  confirmPassword_type (onClick_showConfirmPassword (st, w)).2.1
  = (if showConfirmPassword st then "password" else "text") ∧
  newPassword_type (onClick_showConfirmPassword (st, w)).2.1
  = newPassword_type st ∧
  ((onClick_showPassword ;;! onClick_showConfirmPassword ;;! handleSubmit)
     (st, w)).1 = (handleSubmit (st, w)).1 ∧
  ((onClick_showPassword ;;! onClick_showConfirmPassword ;;! handleSubmit)
     (st, w)).2.2 = (handleSubmit (st, w)).2.2 ∧
  render ((onClick_showPassword ;;! onClick_showConfirmPassword ;;!
           handleSubmit) (st, w)).2.1
  = render (handleSubmit (st, w)).2.1 ∧
  newPassword_type ((onClick_showPassword ;;! onClick_showConfirmPassword ;;!
                     handleSubmit) (st, w)).2.1
  = (if showPassword st then "password" else "text") ∧
  confirmPassword_type ((onClick_showPassword ;;! onClick_showConfirmPassword ;;!
                         handleSubmit) (st, w)).2.1
  = (if showConfirmPassword st then "password" else "text").
Proof.
  split; [by unfold newPassword_type; simpl; destruct (showPassword st)|].
  split; [done|].
  split; [by unfold confirmPassword_type; simpl;
            destruct (showConfirmPassword st)|].
  split; [done|].
  rewrite toggling_runs.
  set (st' := {| email := email st; newPassword := newPassword st;
                 confirmPassword := confirmPassword st;
                 showPassword := negb (showPassword st);
                 showConfirmPassword := negb (showConfirmPassword st);
                 isLoading := isLoading st; isSuccess := isSuccess st;
                 error := error st |}).
  destruct (validation_cases st) as [Hbad|[Heq Hlen]].
  - rewrite (handleSubmit_invalid st w Hbad), (handleSubmit_invalid st' w Hbad).
    simpl. unfold newPassword_type, confirmPassword_type; simpl.
    repeat split;
      by destruct (showPassword st), (showConfirmPassword st).
  - rewrite (handleSubmit_valid st w Heq Hlen), (handleSubmit_valid st' w Heq Hlen).
    simpl. unfold newPassword_type, confirmPassword_type, render; simpl.
    repeat split; repeat case_match; simplify_eq/=; first [done|congruence].
Qed.
